(** * pythonforandroid.recommendations: dependency version checks

    A shallow embedding of [pythonforandroid/recommendations.py] and of the
    parts of the Python runtime and of [packaging.version] that the module
    calls, followed by the properties of the checks.

    Conventions.
    - A Python [int] is a [Z].
    - A Python [str] is a [string]; its characters are the code points below
      256, so the whitespace and line-boundary classes below are the Unicode
      ones restricted to that range.
    - A function that logs or raises is a computation in the monad [M]:
      it maps the log so far to an outcome and the extended log.
    - The file system is a finite map from the paths that can be opened to
      the text read from them; the running interpreter is its
      [sys.version_info].
    - [packaging.version] is the one of packaging 22 and later, where a
      string that is no version raises [InvalidVersion]. *)

From Stdlib Require Import ZArith Lia List Ascii String DecimalString DecimalPos.
From stdpp Require Import gmap strings list.

Local Open Scope Z_scope.

(** ** Python strings *)

Module Py.

(** [str(n)] for an [int].  (The bound of the interpreter on the number of
    digits converted is left out, here and in [int].) *)
Definition str (n : Z) : string := NilZero.string_of_int (Z.to_int n).

(** [int(s)] on a string of decimal digits (the only strings it is applied
    to are the [[0-9]+] captures of the version pattern). *)
Definition int (s : string) : Z :=
  match NilZero.uint_of_string s with
  | Some d => Z.of_uint d
  | None => 0
  end.

Definition ord (c : ascii) : Z := Z.of_N (N_of_ascii c).

(** [chr(i)] for [0 <= i < 256]. *)
Definition chr (i : Z) : string := String (ascii_of_N (Z.to_N i)) "".

(** [c.isspace()]: the characters of bidirectional type WS, B or S and of
    category Zs, below 256. *)
Definition isspace (c : ascii) : bool :=
  let n := ord c in
  ((9 <=? n) && (n <=? 13)) || ((28 <=? n) && (n <=? 32))
  || (n =? 133) || (n =? 160).

(** The line boundaries of [str.splitlines] other than the pair CR LF. *)
Definition islinebreak (c : ascii) : bool :=
  let n := ord c in
  ((10 <=? n) && (n <=? 13)) || ((28 <=? n) && (n <=? 30)) || (n =? 133).

Definition isdigit (c : ascii) : bool :=
  let n := ord c in (48 <=? n) && (n <=? 57).

(** [c.lower()] for a character below 128: the letters A-Z are lowered,
    the others are fixed.  It is applied to the text the version pattern
    matches, which is below 128. *)
Definition lower_char (c : ascii) : ascii :=
  let n := ord c in
  if (65 <=? n) && (n <=? 90) then ascii_of_N (Z.to_N (n + 32)) else c.

Fixpoint lower (s : string) : string :=
  match s with
  | "" => ""
  | String c s' => String (lower_char c) (lower s')
  end.

Fixpoint lstrip (s : string) : string :=
  match s with
  | "" => ""
  | String c s' => if isspace c then lstrip s' else s
  end.

Fixpoint rstrip (s : string) : string :=
  match s with
  | "" => ""
  | String c s' =>
      match rstrip s' with
      | "" => if isspace c then "" else String c ""
      | t => String c t
      end
  end.

(** [s.strip()] *)
Definition strip (s : string) : string := rstrip (lstrip s).

(** [s.startswith(p)] *)
Definition startswith (s p : string) : bool := String.prefix p s.

(** [s.split(sep)] for a separator of one character: the pieces between
    the occurrences of [sep], never an empty list. *)
Fixpoint split (sep : ascii) (s : string) : list string :=
  match s with
  | "" => [""]
  | String c s' =>
      if Ascii.eqb c sep then "" :: split sep s'
      else match split sep s' with
           | piece :: pieces => String c piece :: pieces
           | [] => [String c ""]
           end
  end.

(** [l[-1]] on a list of strings that is not empty. *)
Definition last_item (l : list string) : string := List.last l "".

(** [s.splitlines()]: [cur] is the line being read.  A line boundary ends
    the current line, CR LF counts as one boundary, and no empty line is
    produced after the last boundary. *)
Fixpoint splitlines_from (cur : string) (s : string) : list string :=
  match s with
  | "" => match cur with "" => [] | _ => [cur] end
  | String c s' =>
      if Ascii.eqb c "013" then
        match s' with
        | String "010" s'' => cur :: splitlines_from "" s''
        | _ => cur :: splitlines_from "" s'
        end
      else if islinebreak c then cur :: splitlines_from "" s'
      else splitlines_from (cur +:+ String c "") s'
  end.

Definition splitlines (s : string) : list string := splitlines_from "" s.

(** [os.path.join(a, b)] (posixpath) for a relative [b]. *)
Definition endswith_slash (a : string) : bool :=
  match String.get (String.length a - 1) a with
  | Some c => Ascii.eqb c "/"
  | None => false
  end.

Definition join (a b : string) : string :=
  match a with
  | "" => b
  | _ => if endswith_slash a then a +:+ b else a +:+ "/" +:+ b
  end.

(** [sep.join(l)] *)
Definition concat (sep : string) (l : list string) : string :=
  String.concat sep l.

End Py.

(** ** Regular expressions, as [re] matches them

    The version pattern of [packaging] is a regular expression matched by
    a backtracking engine.  [rmatch r s g] lists, in the order in which the
    engine tries them, the ways [r] can match a prefix of [s]: each is the
    unread rest of [s] with the groups captured so far.  The match the
    engine reports is the first of the list. *)

Module Re.

Inductive regex : Type :=
| Eps                                   (* the empty pattern *)
| Cls (p : ascii -> bool)               (* one character of a class *)
| Seq (r1 r2 : regex)                   (* r1 r2 *)
| Alt (r1 r2 : regex)                   (* r1|r2 *)
| Opt (r : regex)                       (* r?, greedy *)
| Star (r : regex)                      (* r*, greedy *)
| Grp (name : string) (r : regex)       (* (?P<name>r) *)
| Eos.                                  (* $ *)

Definition state : Type := string * gmap string string.

(** The part of [s] read when [rest] is what is left of it. *)
Definition consumed (s rest : string) : string :=
  String.substring 0 (String.length s - String.length rest) s.

(** The iterations of [r*], most first.  [body] matches [r] once; an
    iteration that reads nothing ends the repetition.  [n] bounds the number
    of iterations and is the length of the string where the star starts. *)
Fixpoint star_loop (body : string -> gmap string string -> list state)
    (n : nat) (s : string) (g : gmap string string) : list state :=
  match n with
  | O => [(s, g)]
  | S n' =>
      flat_map (fun st : state =>
                  if Nat.ltb (String.length st.1) (String.length s)
                  then star_loop body n' st.1 st.2 else [])
               (body s g)
      ++ [(s, g)]
  end.

Fixpoint rmatch (r : regex) (s : string) (g : gmap string string) : list state :=
  match r with
  | Eps => [(s, g)]
  | Cls p =>
      match s with
      | String c s' => if p c then [(s', g)] else []
      | "" => []
      end
  | Seq r1 r2 => flat_map (fun st : state => rmatch r2 st.1 st.2) (rmatch r1 s g)
  | Alt r1 r2 => rmatch r1 s g ++ rmatch r2 s g
  | Opt r' => rmatch r' s g ++ [(s, g)]
  | Star r' => star_loop (rmatch r') (String.length s) s g
  | Grp name r' =>
      map (fun st : state => (st.1, <[name := consumed s st.1]> st.2)) (rmatch r' s g)
  | Eos =>
      match s with
      | "" => [(s, g)]
      | String "010" "" => [(s, g)]
      | _ => []
      end
  end.

(** r+ *)
Definition Plus (r : regex) : regex := Seq r (Star r).

(** A literal character and a literal string under [re.IGNORECASE]. *)
Definition Chr (c : ascii) : regex :=
  Cls (fun x => Ascii.eqb (Py.lower_char x) (Py.lower_char c)).

Fixpoint Lit (s : string) : regex :=
  match s with
  | "" => Eps
  | String c "" => Chr c
  | String c s' => Seq (Chr c) (Lit s')
  end.

(** [[...]]: one of the characters of [set], under [re.IGNORECASE]. *)
Definition OneOf (set : string) : regex :=
  Cls (fun x => existsb (fun c => Ascii.eqb (Py.lower_char x) (Py.lower_char c))
                        (list_ascii_of_string set)).

(** [pattern.search(s)] for a pattern anchored at the start: the groups of
    the first match, if any. *)
Definition search (r : regex) (s : string) : option (gmap string string) :=
  match rmatch r s ∅ with
  | st :: _ => Some st.2
  | [] => None
  end.

End Re.

Declare Scope regex_scope.
Delimit Scope regex_scope with re.
Infix ">>" := Re.Seq (at level 60, right associativity) : regex_scope.
Infix "|||" := Re.Alt (at level 50, left associativity) : regex_scope.

(** ** packaging.version

    [packaging] is a library the module imports; its version pattern,
    [Version] and the comparison key are transcribed from it. *)

Module version.

Import Re.
Local Open Scope regex_scope.

Definition digits : regex := Plus (Cls Py.isdigit).            (* [0-9]+ *)
Definition sep : regex := Opt (OneOf "-_.").                    (* [-_\.]? *)
Definition alnum (c : ascii) : bool :=
  let n := Py.ord (Py.lower_char c) in
  Py.isdigit c || ((97 <=? n) && (n <=? 122)).
Definition alnums : regex := Plus (Cls alnum).                  (* [a-z0-9]+ *)

(** The segments of [VERSION_PATTERN], compiled with
    [re.VERBOSE | re.IGNORECASE]. *)
Definition epoch_segment : regex := Grp "epoch" digits >> Lit "!".

Definition release_segment : regex :=
  Grp "release" (digits >> Star (Lit "." >> digits)).

Definition pre_segment : regex :=
  Grp "pre"
    (sep >>
     Grp "pre_l" (Lit "alpha" ||| Lit "a" ||| Lit "beta" ||| Lit "b" ||| Lit "preview"
                  ||| Lit "pre" ||| Lit "c" ||| Lit "rc") >>
     sep >>
     Opt (Grp "pre_n" digits)).

Definition post_segment : regex :=
  Grp "post"
    ((Lit "-" >> Grp "post_n1" digits)
     ||| (sep >>
          Grp "post_l" (Lit "post" ||| Lit "rev" ||| Lit "r") >>
          sep >>
          Opt (Grp "post_n2" digits))).

Definition dev_segment : regex :=
  Grp "dev" (sep >> Grp "dev_l" (Lit "dev") >> sep >> Opt (Grp "dev_n" digits)).

Definition local_segment : regex :=
  Lit "+" >> Grp "local" (alnums >> Star (OneOf "-_." >> alnums)).

(** What may follow the release. *)
Definition suffix_segments : regex :=
  Opt pre_segment >> Opt post_segment >> Opt dev_segment >> Opt local_segment.

Definition VERSION_PATTERN : regex :=
  Opt (Lit "v") >> Opt epoch_segment >> release_segment >> suffix_segments.

(** [Version._regex]: the pattern between [^\s*] and [\s*$]. *)
Definition _regex : regex :=
  Star (Cls Py.isspace) >> VERSION_PATTERN >> Star (Cls Py.isspace) >> Eos.

(** A part of a local version label: a number, or a lower-case word. *)
Inductive local_part : Type :=
| LInt (n : Z)
| LStr (s : string).

(** [_Version]: the parsed fields.  [pre], [post] and [dev] are a letter and
    a number. *)
Record Version : Type := mkVersion {
  epoch : Z;
  release : list Z;
  pre : option (string * Z);
  post : option (string * Z);
  dev : option (string * Z);
  local : option (list local_part)
}.

(** The truth value of an optional group: it took part in the match and is
    not empty. *)
Definition truthy (o : option string) : bool :=
  match o with
  | Some (String _ _) => true
  | _ => false
  end.

Definition _parse_letter_version (letter number : option string)
  : option (string * Z) :=
  if truthy letter then
    let n := match number with None => 0 | Some d => Py.int d end in
    let l := Py.lower (default "" letter) in
    let l := if String.eqb l "alpha" then "a"
             else if String.eqb l "beta" then "b"
             else if String.eqb l "c" || String.eqb l "pre" || String.eqb l "preview"
                  then "rc"
             else if String.eqb l "rev" || String.eqb l "r" then "post"
             else l in
    Some (l, n)
  else if truthy number then Some ("post", Py.int (default "" number))
  else None.

(** [re.split] on the separators [._-] of a local version label. *)
Fixpoint split_local (s : string) : list string :=
  match s with
  | "" => [""]
  | String c s' =>
      if Ascii.eqb c "." || Ascii.eqb c "_" || Ascii.eqb c "-"
      then "" :: split_local s'
      else match split_local s' with
           | piece :: pieces => String c piece :: pieces
           | [] => [String c ""]
           end
  end.

Definition all_digits (s : string) : bool :=
  match s with
  | "" => false
  | _ => forallb Py.isdigit (list_ascii_of_string s)
  end.

Definition _parse_local_version (loc : option string) : option (list local_part) :=
  match loc with
  | Some l =>
      Some (map (fun part => if all_digits part then LInt (Py.int part)
                             else LStr (Py.lower part))
                (split_local l))
  | None => None
  end.

(** [a or b] on optional groups. *)
Definition or_group (a b : option string) : option string :=
  if truthy a then a else b.

(** [Version(version)]: [None] stands for raising [InvalidVersion]. *)
Definition Version_of (v : string) : option Version :=
  match search _regex v with
  | None => None
  | Some m =>
      Some {|
        epoch := if truthy (m !! "epoch") then Py.int (default "" (m !! "epoch")) else 0;
        release := map Py.int (Py.split "." (default "" (m !! "release")));
        pre := _parse_letter_version (m !! "pre_l") (m !! "pre_n");
        post := _parse_letter_version (m !! "post_l")
                  (or_group (m !! "post_n1") (m !! "post_n2"));
        dev := _parse_letter_version (m !! "dev_l") (m !! "dev_n");
        local := _parse_local_version (m !! "local")
      |}
  end.

(** [packaging.version.parse] *)
Definition parse (v : string) : option Version := Version_of v.

(** [Version.major] and [Version.minor] *)
Definition major (v : Version) : Z := nth 0 (release v) 0.
Definition minor (v : Version) : Z := nth 1 (release v) 0.

(** [Infinity] and [NegativeInfinity] of [packaging._structures], around
    the values they are compared with. *)
Inductive bound (A : Type) : Type :=
| NegativeInfinity
| Finite (a : A)
| Infinity.
Arguments NegativeInfinity {A}.
Arguments Finite {A} a.
Arguments Infinity {A}.

Section Ordering.
Context {A B : Type} (cmpA : A -> A -> comparison) (cmpB : B -> B -> comparison).

Definition cmp_bound (x y : bound A) : comparison :=
  match x, y with
  | NegativeInfinity, NegativeInfinity => Eq
  | NegativeInfinity, _ => Lt
  | _, NegativeInfinity => Gt
  | Infinity, Infinity => Eq
  | Infinity, _ => Gt
  | _, Infinity => Lt
  | Finite a, Finite b => cmpA a b
  end.

(** Tuples of two elements: the first elements that differ decide. *)
Definition cmp_pair (x y : A * B) : comparison :=
  match cmpA x.1 y.1 with
  | Eq => cmpB x.2 y.2
  | c => c
  end.

(** Tuples of any length: the first elements that differ decide, and a
    proper prefix is smaller. *)
Fixpoint cmp_tuple (x y : list A) : comparison :=
  match x, y with
  | [], [] => Eq
  | [], _ :: _ => Lt
  | _ :: _, [] => Gt
  | a :: x', b :: y' =>
      match cmpA a b with
      | Eq => cmp_tuple x' y'
      | c => c
      end
  end.
End Ordering.

(** [itertools.dropwhile(lambda x: x == 0, l)] *)
Fixpoint dropwhile_zero (l : list Z) : list Z :=
  match l with
  | 0 :: l' => dropwhile_zero l'
  | _ => l
  end.

Record Key : Type := mkKey {
  key_epoch : Z;
  key_release : list Z;
  key_pre : bound (string * Z);
  key_post : bound (string * Z);
  key_dev : bound (string * Z);
  key_local : bound (list (bound Z * string))
}.

(** [_cmpkey]: trailing zeros of the release do not count; a version with
    only a dev segment sorts before its pre-releases, one with no
    pre-release after them; no post segment sorts first, no dev segment
    last; no local label sorts first and words sort before numbers. *)
Definition _cmpkey (v : Version) : Key :=
  {| key_epoch := epoch v;
     key_release := rev (dropwhile_zero (rev (release v)));
     key_pre :=
       match pre v, post v, dev v with
       | None, None, Some _ => NegativeInfinity
       | None, _, _ => Infinity
       | Some p, _, _ => Finite p
       end;
     key_post := match post v with None => NegativeInfinity | Some p => Finite p end;
     key_dev := match dev v with None => Infinity | Some d => Finite d end;
     key_local :=
       match local v with
       | None => NegativeInfinity
       | Some l =>
           Finite (map (fun part => match part with
                                    | LInt i => (Finite i, "")
                                    | LStr w => (NegativeInfinity, w)
                                    end) l)
       end |}.

Definition cmp_segment : bound (string * Z) -> bound (string * Z) -> comparison :=
  cmp_bound (cmp_pair String.compare Z.compare).

(** The order of the keys, as tuples. *)
Definition cmp_key (k1 k2 : Key) : comparison :=
  match Z.compare (key_epoch k1) (key_epoch k2) with
  | Eq =>
  match cmp_tuple Z.compare (key_release k1) (key_release k2) with
  | Eq =>
  match cmp_segment (key_pre k1) (key_pre k2) with
  | Eq =>
  match cmp_segment (key_post k1) (key_post k2) with
  | Eq =>
  match cmp_segment (key_dev k1) (key_dev k2) with
  | Eq =>
      cmp_bound (cmp_tuple (cmp_pair (cmp_bound Z.compare) String.compare))
                (key_local k1) (key_local k2)
  | c => c end
  | c => c end
  | c => c end
  | c => c end
  | c => c end.

(** [v1 < v2] *)
Definition lt (v1 v2 : Version) : bool :=
  match cmp_key (_cmpkey v1) (_cmpkey v2) with
  | Lt => true
  | _ => false
  end.

(** [str(v)] *)
Definition to_str (v : Version) : string :=
  (if epoch v =? 0 then "" else Py.str (epoch v) +:+ "!")
  +:+ Py.concat "." (map Py.str (release v))
  +:+ match pre v with Some (l, n) => l +:+ Py.str n | None => "" end
  +:+ match post v with Some (_, n) => ".post" +:+ Py.str n | None => "" end
  +:+ match dev v with Some (_, n) => ".dev" +:+ Py.str n | None => "" end
  +:+ match local v with
      | Some l =>
          "+" +:+ Py.concat "." (map (fun part => match part with
                                                  | LInt i => Py.str i
                                                  | LStr w => w
                                                  end) l)
      | None => ""
      end.

End version.

(** ** Logging and exceptions *)

(** Modelled from the spec: the functions [info] and [warning] of
    [pythonforandroid.logger], which the module imports.  A logging call has
    a severity, "informational" or "warning", and a message, and has no
    effect on the control flow of the caller: it adds one record to the
    log. *)
Inductive level : Type := INFO | WARNING.

Record log_record : Type := Log { severity : level; message : string }.

(** Modelled from the spec: the class [BuildInterruptingException] of
    [pythonforandroid.util], which the module imports.  It is the
    distinguished exception of fatal conditions and carries a message and a
    separate field of remediation instructions, which may be missing.
    [InvalidVersion] is the exception of [packaging.version] for a string
    that is no version. *)
Inductive exn : Type :=
| BuildInterruptingException (message : string) (instructions : option string)
| InvalidVersion (version : string).

Inductive outcome (A : Type) : Type :=
| Return (a : A)
| Raise (e : exn).
Arguments Return {A} a.
Arguments Raise {A} e.

(** A computation that may log and may raise. *)
Definition M (A : Type) : Type := list log_record -> outcome A * list log_record.

Global Instance M_ret : MRet M := fun A a log => (Return a, log).

Global Instance M_bind : MBind M := fun A B k m log =>
  match m log with
  | (Return a, log') => k a log'
  | (Raise e, log') => (Raise e, log')
  end.

Definition raise {A : Type} (e : exn) : M A := fun log => (Raise e, log).

Definition info (msg : string) : M unit := fun log => (Return tt, log ++ [Log INFO msg]).

Definition warning (msg : string) : M unit :=
  fun log => (Return tt, log ++ [Log WARNING msg]).

(** A call from an empty log: the outcome and the records it logs. *)
Definition run {A : Type} (m : M A) : outcome A * list log_record := m [].

(** ** The module [pythonforandroid.recommendations] *)

(** We only check the NDK major version *)
Definition MIN_NDK_VERSION : Z := 27.
Definition MAX_NDK_VERSION : Z := 27.

Definition RECOMMENDED_NDK_VERSION : string := "28c".

Definition NDK_DOWNLOAD_URL : string := "https://developer.android.com/ndk/downloads/".

(** The log messages; the ones with fields are functions of the arguments
    of [format]. *)
Definition NEW_NDK_MESSAGE : string := "Newer NDKs may not be fully supported by p4a.".
Definition UNKNOWN_NDK_MESSAGE : string :=
  "Could not determine NDK version, no source.properties in the NDK dir.".
Definition PARSE_ERROR_NDK_MESSAGE : string :=
  "Could not parse $NDK_DIR/source.properties, not checking NDK version.".
Definition READ_ERROR_NDK_MESSAGE (ndk_dir : string) : string :=
  "Unable to read the NDK version from the given directory " +:+ ndk_dir +:+ ".".
Definition ENSURE_RIGHT_NDK_MESSAGE (min_supported : Z) (rec_version ndk_url : string)
  : string :=
  "Make sure your NDK version is greater than " +:+ Py.str min_supported +:+ ". "
  +:+ "If you get build errors, download the recommended NDK " +:+ rec_version
  +:+ " from " +:+ ndk_url +:+ ".".
Definition NDK_LOWER_THAN_SUPPORTED_MESSAGE (min_supported : Z) (ndk_url : string)
  : string :=
  "The minimum supported NDK version is " +:+ Py.str min_supported +:+ ". "
  +:+ "You can download it from " +:+ ndk_url +:+ ".".
Definition UNSUPPORTED_NDK_API_FOR_ARMEABI_MESSAGE (req_ndk_api max_ndk_api : Z)
  : string :=
  "Asked to build for armeabi architecture with API " +:+ Py.str req_ndk_api +:+ ", "
  +:+ "but API " +:+ Py.str max_ndk_api +:+ " or greater does not support armeabi.".
Definition CURRENT_NDK_VERSION_MESSAGE (ndk_version : string) : string :=
  "Found NDK version " +:+ ndk_version.
Definition RECOMMENDED_NDK_VERSION_MESSAGE (recommended_ndk_version : string) : string :=
  "Maximum recommended NDK version is " +:+ recommended_ndk_version +:+ ", "
  +:+ "but newer versions may work.".

(** The files that can be opened, with the text [read()] returns; [open]
    raises [IOError] on every other path. *)
Definition files : Type := gmap string string.

(** The body of the loop over the lines. *)
Fixpoint scan_lines (lines : list string) : M (option version.Version) :=
  match lines with
  | [] =>
      _ ← info PARSE_ERROR_NDK_MESSAGE;
      mret None
  | line :: lines' =>
      if Py.startswith line "Pkg.Revision" then
        let unparsed_ndk_version := Py.strip (Py.last_item (Py.split "=" line)) in
        match version.parse unparsed_ndk_version with
        | Some v => mret (Some v)
        | None => raise (InvalidVersion unparsed_ndk_version)
        end
      else scan_lines lines'
  end.

(** Read the NDK version from source.properties if possible. *)
Definition read_ndk_version (fs : files) (ndk_dir : string)
  : M (option version.Version) :=
  match fs !! Py.join ndk_dir "source.properties" with
  | None =>
      _ ← info UNKNOWN_NDK_MESSAGE;
      mret None
  | Some ndk_data => scan_lines (Py.splitlines ndk_data)
  end.

(** [range(a, b)] and [enumerate(l)] *)
Definition range (a b : Z) : list Z := seqZ a (b - a).
Definition enumerate {A : Type} (l : list A) : list (Z * A) :=
  zip (seqZ 0 (Z.of_nat (length l))) l.

(** Mapping NDK minor to letter (17.1 is 17b etc.): the dictionary
    [{0: ""}] updated with [{n + 1: chr(i) for n, i in enumerate(...)}]. *)
Definition minor_to_letter : gmap Z string :=
  let letters :=
    foldl (fun d ni => <[ni.1 + 1 := Py.chr ni.2]> d) ∅
          (enumerate (range (Py.ord "b") (Py.ord "b" + 25))) in
  letters ∪ {[0 := ""]}.

Definition string_version (ndk_version : version.Version) : string :=
  Py.str (version.major ndk_version)
  +:+ default "" (minor_to_letter !! version.minor ndk_version).

(** Check the NDK version and raise/warn accordingly. *)
Definition check_ndk_version (fs : files) (ndk_dir : string) : M unit :=
  ndk_version ← read_ndk_version fs ndk_dir;
  match ndk_version with
  | None =>
      _ ← warning (READ_ERROR_NDK_MESSAGE ndk_dir);
      _ ← warning (ENSURE_RIGHT_NDK_MESSAGE MIN_NDK_VERSION RECOMMENDED_NDK_VERSION
                     NDK_DOWNLOAD_URL);
      mret tt
  | Some ndk_version =>
      _ ← info (CURRENT_NDK_VERSION_MESSAGE (string_version ndk_version));
      if version.major ndk_version <? MIN_NDK_VERSION then
        raise (BuildInterruptingException
                 (NDK_LOWER_THAN_SUPPORTED_MESSAGE MIN_NDK_VERSION NDK_DOWNLOAD_URL)
                 (Some ("Please download a supported NDK from " +:+ NDK_DOWNLOAD_URL
                        +:+ "." +:+ String "010" ""
                        +:+ "*** The currently recommended NDK version is "
                        +:+ RECOMMENDED_NDK_VERSION +:+ " ***")))
      else if MAX_NDK_VERSION <? version.major ndk_version then
        _ ← warning (RECOMMENDED_NDK_VERSION_MESSAGE RECOMMENDED_NDK_VERSION);
        warning NEW_NDK_MESSAGE
      else mret tt
  end.

(** Android Target API requirements *)
Definition MIN_TARGET_API : Z := 30.
Definition RECOMMENDED_TARGET_API : Z := 34.
Definition ARMEABI_MAX_TARGET_API : Z := 21.

Definition OLD_API_MESSAGE : string :=
  "Target APIs lower than 30 are no longer supported on Google Play. "
  +:+ "The Target API should usually be as high as possible.".

(** Warn if target API is too low. *)
Definition check_target_api (api : Z) (arch : string) : M unit :=
  if (ARMEABI_MAX_TARGET_API <=? api) && String.eqb arch "armeabi" then
    raise (BuildInterruptingException
             (UNSUPPORTED_NDK_API_FOR_ARMEABI_MESSAGE api ARMEABI_MAX_TARGET_API)
             (Some "Use --arch=armeabi-v7a instead."))
  else if api <? MIN_TARGET_API then
    _ ← warning ("Target API " +:+ Py.str api +:+ " < " +:+ Py.str MIN_TARGET_API);
    warning OLD_API_MESSAGE
  else mret tt.

(** NDK API levels *)
Definition MIN_NDK_API : Z := 21.
Definition RECOMMENDED_NDK_API : Z := 24.
Definition OLD_NDK_API_MESSAGE : string :=
  "NDK API less than " +:+ Py.str MIN_NDK_API +:+ " is not supported".
Definition TARGET_NDK_API_GREATER_THAN_TARGET_API_MESSAGE (ndk_api android_api : Z)
  : string :=
  "Target NDK API " +:+ Py.str ndk_api +:+ " is higher than the target Android API "
  +:+ Py.str android_api +:+ ".".

(** Ensure NDK API is within supported range. *)
Definition check_ndk_api (ndk_api android_api : Z) : M unit :=
  if android_api <? ndk_api then
    raise (BuildInterruptingException
             (TARGET_NDK_API_GREATER_THAN_TARGET_API_MESSAGE ndk_api android_api)
             (Some "NDK API must be <= target Android API."))
  else if ndk_api <? MIN_NDK_API then warning OLD_NDK_API_MESSAGE
  else mret tt.

(** Python version: the names the module binds when it is imported, from
    the version of the running interpreter. *)
Record version_info : Type := { vi_major : Z; vi_minor : Z }.   (* sys.version_info *)

Record python_names : Type := {
  MIN_PYTHON_VERSION : version.Version;
  CURRENT_PYTHON_VERSION : version.Version;
  PY2_ERROR_TEXT : string;
  PY_VERSION_ERROR_TEXT : string
}.

(** The assignments of the module, in order; [None] stands for an import
    that raises [InvalidVersion]. *)
Definition import_python_names (sys_version_info : version_info) : option python_names :=
  min_python_version ← version.Version_of "3.6";
  current_python_version ←
    version.Version_of (Py.str (vi_major sys_version_info) +:+ "."
                        +:+ Py.str (vi_minor sys_version_info));
  Some {|
    MIN_PYTHON_VERSION := min_python_version;
    CURRENT_PYTHON_VERSION := current_python_version;
    PY2_ERROR_TEXT :=
      "python-for-android no longer supports Python 2. "
      +:+ "Upgrade to Python " +:+ version.to_str min_python_version +:+ " or higher.";
    PY_VERSION_ERROR_TEXT :=
      "Your Python version " +:+ version.to_str current_python_version
      +:+ " is not supported, "
      +:+ "please upgrade to " +:+ version.to_str min_python_version +:+ " or higher."
  |}.

(** Check the current Python version. *)
Definition check_python_version (sys_version_info : version_info) (names : python_names)
  : M unit :=
  if vi_major sys_version_info =? 2 then
    raise (BuildInterruptingException (PY2_ERROR_TEXT names) None)
  else if version.lt (CURRENT_PYTHON_VERSION names) (MIN_PYTHON_VERSION names) then
    raise (BuildInterruptingException (PY_VERSION_ERROR_TEXT names) None)
  else mret tt.

(** ** What a caller observes *)

(** The call raised the exception of fatal conditions. *)
Definition is_fatal {A : Type} (o : outcome A) : bool :=
  match o with
  | Raise (BuildInterruptingException _ _) => true
  | _ => false
  end.

(** The call raised, whatever the exception. *)
Definition raised {A : Type} (o : outcome A) : bool :=
  match o with
  | Raise _ => true
  | Return _ => false
  end.

Definition is_warning (r : log_record) : bool :=
  match severity r with
  | WARNING => true
  | INFO => false
  end.

(** The messages logged with severity "warning". *)
Definition warnings (log : list log_record) : list string :=
  map message (List.filter is_warning log).

(** The line of [source.properties] the scan stops at, if any. *)
Definition revision_line (lines : list string) : option string :=
  List.find (fun line => Py.startswith line "Pkg.Revision") lines.

(** What [read_ndk_version] does with the line it stops at. *)
Definition revision_of_line (line : string) : M (option version.Version) :=
  let value := Py.strip (Py.last_item (Py.split "=" line)) in
  match version.parse value with
  | Some v => mret (Some v)
  | None => raise (InvalidVersion value)
  end.

(** Two calls in a row, the second from the log the first leaves: the
    outcomes are the same and so are the records each call adds. *)
Definition repeatable {A : Type} (m : M A) : Prop :=
  ∀ log : list log_record,
    let first := m log in
    let second := m first.2 in
    first.1 = second.1
    ∧ ∃ added, first.2 = log ++ added ∧ second.2 = first.2 ++ added.

(** The outcome of [m] and the records it adds do not depend on the log. *)
Definition uniform {A : Type} (m : M A) : Prop :=
  ∃ (o : outcome A) (added : list log_record), ∀ log, m log = (o, log ++ added).

(** The first character of [s], if any, is not in the class [p]. *)
Definition stops (p : ascii → bool) (s : string) : Prop :=
  match s with
  | "" => True
  | String c _ => p c = false
  end.

(** A string of decimal digits. *)
Definition digit_string (d : string) : Prop :=
  Forall (fun c => Py.isdigit c = true) (list_ascii_of_string d).

(** ** What the further properties are stated with *)

(** What follows the first number of a release: each further number after
    a ["."]. *)
Fixpoint dotted_tail (ds : list string) : string :=
  match ds with
  | [] => ""
  | d :: ds' => String "." (d +:+ dotted_tail ds')
  end.

(** A number as the version pattern reads it: decimal digits, at least one. *)
Definition number (d : string) : Prop := d ≠ "" ∧ digit_string d.

(** A string of whitespace characters. *)
Definition blank (s : string) : Prop :=
  Forall (fun c => Py.isspace c = true) (list_ascii_of_string s).

(** The text of a file from its lines, each ended by [eol]. *)
Fixpoint unlines (eol : string) (lines : list string) : string :=
  match lines with
  | [] => ""
  | l :: lines' => l +:+ eol +:+ unlines eol lines'
  end.

(** A line of text: it has no line boundary inside. *)
Definition one_line (l : string) : Prop :=
  Forall (fun c => Py.islinebreak c = false) (list_ascii_of_string l).

(** A string with no whitespace character. *)
Definition solid (s : string) : Prop :=
  Forall (fun c => Py.isspace c = false) (list_ascii_of_string s).

(** The two usual ends of a line of text: LF, and CR LF. *)
Definition is_eol (eol : string) : Prop :=
  eol = String "010" "" ∨ eol = String "013" (String "010" "").

(** [print(line)]: the standard output is the list of the lines printed. *)
Definition print (line : string) (stdout : list string) : list string :=
  stdout ++ [line].

(** Print recommended dependency versions. *)
Definition print_recommendations (stdout : list string) : list string :=
  let stdout := print ("Min supported NDK version: " +:+ Py.str MIN_NDK_VERSION) stdout in
  let stdout := print ("Recommended NDK version: " +:+ RECOMMENDED_NDK_VERSION) stdout in
  let stdout := print ("Min target API: " +:+ Py.str MIN_TARGET_API) stdout in
  let stdout := print ("Recommended target API: " +:+ Py.str RECOMMENDED_TARGET_API) stdout in
  let stdout := print ("Min NDK API: " +:+ Py.str MIN_NDK_API) stdout in
  print ("Recommended NDK API: " +:+ Py.str RECOMMENDED_NDK_API) stdout.

(** No line of the properties file starts with the key, or the file cannot
    be opened. *)
Definition revision_unknown (fs : files) (ndk_dir : string) : Prop :=
  match fs !! Py.join ndk_dir "source.properties" with
  | None => True
  | Some ndk_data =>
      Forall (fun l => Py.startswith l "Pkg.Revision" = false) (Py.splitlines ndk_data)
  end.

(** The class of the literal character [c] under [re.IGNORECASE]. *)
Definition is_chr (c : ascii) : ascii → bool :=
  fun x => Ascii.eqb (Py.lower_char x) (Py.lower_char c).

(** The tags of the pre-releases of the NDK, with the letter each is
    normalized to. *)
Definition ndk_pre_tag (tag letter : string) : Prop :=
  (tag = "beta" ∧ letter = "b") ∨ (tag = "rc" ∧ letter = "rc").

(** * Properties *)

(** ** The model on examples *)

Example str_neg : Py.str (-5) = "-5". Proof. reflexivity. Qed.

Example str_27 : Py.str 27 = "27". Proof. reflexivity. Qed.

Example int_007 : Py.int "007" = 7. Proof. reflexivity. Qed.

Example chr_b : Py.chr (Py.ord "b") = "b". Proof. reflexivity. Qed.

Example strip_ex : Py.strip "  27.2 " = "27.2". Proof. reflexivity. Qed.

Example split_ex : Py.split "=" "a = b=c" = ["a "; " b"; "c"]. Proof. reflexivity. Qed.

Example split_none : Py.split "=" "abc" = ["abc"]. Proof. reflexivity. Qed.

Example splitlines_ex :
  Py.splitlines ("a" +:+ String "010" ("" +:+ String "013" (String "010" "b" +:+ String "010" "")))
  = ["a"; ""; "b"].
Proof. reflexivity. Qed.

Example join_ex : Py.join "ndk" "source.properties" = "ndk/source.properties".
Proof. reflexivity. Qed.

Example join_slash : Py.join "ndk/" "source.properties" = "ndk/source.properties".
Proof. reflexivity. Qed.

Example parse_ndk :
  version.parse "27.2.12479018"
  = Some (version.mkVersion 0 [27; 2; 12479018] None None None None).
Proof. vm_compute. reflexivity. Qed.

Example parse_beta :
  version.parse "27.0.11718014-beta1"
  = Some (version.mkVersion 0 [27; 0; 11718014] (Some ("b", 1)) None None None).
Proof. vm_compute. reflexivity. Qed.

Example parse_full :
  version.parse " v1!2.0RC.post3-dev+Ab.01 "
  = Some (version.mkVersion 1 [2; 0] (Some ("rc", 0)) (Some ("post", 3)) (Some ("dev", 0))
            (Some [version.LStr "ab"; version.LInt 1])).
Proof. vm_compute. reflexivity. Qed.

Example parse_post : version.parse "1.0-4" 
  = Some (version.mkVersion 0 [1; 0] None (Some ("post", 4)) None None).
Proof. vm_compute. reflexivity. Qed.

Example parse_bad : version.parse "unknown" = None.
Proof. vm_compute. reflexivity. Qed.

Example parse_empty : version.parse "" = None.
Proof. vm_compute. reflexivity. Qed.

Example parse_key : version.parse "Pkg.Revision" = None.
Proof. vm_compute. reflexivity. Qed.

Example lt_35_36 :
  version.lt (version.mkVersion 0 [3; 5] None None None None)
             (version.mkVersion 0 [3; 6] None None None None) = true.
Proof. reflexivity. Qed.

Example lt_30_3 :
  version.lt (version.mkVersion 0 [3; 0] None None None None)
             (version.mkVersion 0 [3] None None None None) = false.
Proof. reflexivity. Qed.

Example lt_rc_final :
  option_map version.to_str (version.parse "1!2.0RC.post3-dev+Ab.01")
  = Some "1!2.0rc0.post3.dev0+ab.1".
Proof. vm_compute. reflexivity. Qed.

Example lt_dev_pre :
  (v1 ← version.parse "1.0.dev1"; v2 ← version.parse "1.0a1";
   v3 ← version.parse "1.0"; v4 ← version.parse "1.0+x"; v5 ← version.parse "1.0.post1";
   Some [version.lt v1 v2; version.lt v2 v3; version.lt v3 v4; version.lt v4 v5;
         version.lt v3 v1])
  = Some [true; true; true; true; false].
Proof. vm_compute. reflexivity. Qed.


Example target_21_armeabi : is_fatal (run (check_target_api 21 "armeabi")).1 = true.
Proof. reflexivity. Qed.
Example target_20_armeabi :
  (run (check_target_api 20 "armeabi")).1 = Return tt
  ∧ length (warnings (run (check_target_api 20 "armeabi")).2) = 2%nat.
Proof. split; reflexivity. Qed.
Example target_29_arm64 :
  run (check_target_api 29 "arm64-v8a")
  = (Return tt, [Log WARNING "Target API 29 < 30"; Log WARNING OLD_API_MESSAGE]).
Proof. reflexivity. Qed.
Example target_30_arm64 : run (check_target_api 30 "arm64-v8a") = (Return tt, []).
Proof. reflexivity. Qed.
Example ndk_api_25_24 : is_fatal (run (check_ndk_api 25 24)).1 = true.
Proof. reflexivity. Qed.
Example ndk_api_20_24 :
  run (check_ndk_api 20 24)
  = (Return tt, [Log WARNING "NDK API less than 21 is not supported"]).
Proof. reflexivity. Qed.
Example ndk_api_24_24 : run (check_ndk_api 24 24) = (Return tt, []).
Proof. reflexivity. Qed.
Example ndk_missing_file :
  run (check_ndk_version ∅ "ndk")
  = (Return tt,
     [Log INFO UNKNOWN_NDK_MESSAGE;
      Log WARNING "Unable to read the NDK version from the given directory ndk.";
      Log WARNING (ENSURE_RIGHT_NDK_MESSAGE 27 "28c" NDK_DOWNLOAD_URL)]).
Proof. vm_compute. reflexivity. Qed.
Example ndk_26_is_fatal :
  is_fatal (run (check_ndk_version {["ndk/source.properties" := "Pkg.Revision = 26.3.11579264"]}
                                   "ndk")).1 = true.
Proof. vm_compute. reflexivity. Qed.
Example ndk_28_warns :
  (run (check_ndk_version {["ndk/source.properties" := "Pkg.Revision = 28.2.13676358"]}
                          "ndk"))
  = (Return tt,
     [Log INFO "Found NDK version 28c";
      Log WARNING "Maximum recommended NDK version is 28c, but newer versions may work.";
      Log WARNING NEW_NDK_MESSAGE]).
Proof. vm_compute. reflexivity. Qed.
Example python_2_7 :
  (names ← import_python_names {| vi_major := 2; vi_minor := 7 |};
   Some (run (check_python_version {| vi_major := 2; vi_minor := 7 |} names)))
  = Some (Raise (BuildInterruptingException
                   "python-for-android no longer supports Python 2. Upgrade to Python 3.6 or higher."
                   None), []).
Proof. vm_compute. reflexivity. Qed.
Example python_3_12 :
  (names ← import_python_names {| vi_major := 3; vi_minor := 12 |};
   Some (run (check_python_version {| vi_major := 3; vi_minor := 12 |} names)))
  = Some (Return tt, []).
Proof. vm_compute. reflexivity. Qed.

(** ** Running a computation *)

Ltac run_M :=
  unfold run, mbind, M_bind, mret, M_ret, warning, info, raise; simpl;
  rewrite <- ?app_assoc; simpl.

(** ** Target API and NDK API *)

(** C3: [check_target_api(api, arch)] is fatal exactly when [arch] is
    ["armeabi"] and [api >= 21]; that test comes first, so the call is fatal
    there whether or not [api < 30], and nothing is logged before it raises.
    Otherwise the call returns, with two warnings exactly when [api < 30]
    and with nothing logged when [api >= 30]. *)
Theorem C3_check_target_api (api : Z) (arch : string) (log : list log_record) :
  check_target_api api arch log =
    (if decide (arch = "armeabi" ∧ 21 <= api) then
       (Raise (BuildInterruptingException
                 (UNSUPPORTED_NDK_API_FOR_ARMEABI_MESSAGE api 21)
                 (Some "Use --arch=armeabi-v7a instead.")), log)
     else if decide (api < 30) then
       (Return tt, log ++ [Log WARNING ("Target API " +:+ Py.str api +:+ " < 30");
                           Log WARNING OLD_API_MESSAGE])
     else (Return tt, log))
  ∧ (is_fatal (run (check_target_api api arch)).1 = true ↔ arch = "armeabi" ∧ 21 <= api)
  ∧ (raised (run (check_target_api api arch)).1 = false
     ∧ length (warnings (run (check_target_api api arch)).2) = 2%nat
     ↔ ¬ (arch = "armeabi" ∧ 21 <= api) ∧ api < 30)
  ∧ (run (check_target_api api arch) = (Return tt, [])
     ↔ ¬ (arch = "armeabi" ∧ 21 <= api) ∧ 30 <= api).
Proof.
  assert (Harch : String.eqb arch "armeabi" = bool_decide (arch = "armeabi")).
  { case_bool_decide as E; [by apply String.eqb_eq | by apply String.eqb_neq]. }
  unfold check_target_api, ARMEABI_MAX_TARGET_API, MIN_TARGET_API.
  rewrite Harch. clear Harch.
  destruct (Z.leb_spec 21 api), (Z.ltb_spec api 30);
    case_bool_decide; repeat case_decide; run_M;
    intuition (first [lia | discriminate | congruence]).
Qed.

(** C4: [check_ndk_api(ndk_api, android_api)] is fatal exactly when
    [ndk_api > android_api]; otherwise it returns, with one warning exactly
    when [ndk_api < 21] and with nothing logged when [ndk_api >= 21], in
    particular when the two levels are equal. *)
Theorem C4_check_ndk_api (ndk_api android_api : Z) (log : list log_record) :
  check_ndk_api ndk_api android_api log =
    (if decide (android_api < ndk_api) then
       (Raise (BuildInterruptingException
                 (TARGET_NDK_API_GREATER_THAN_TARGET_API_MESSAGE ndk_api android_api)
                 (Some "NDK API must be <= target Android API.")), log)
     else if decide (ndk_api < 21) then
       (Return tt, log ++ [Log WARNING "NDK API less than 21 is not supported"])
     else (Return tt, log))
  ∧ (is_fatal (run (check_ndk_api ndk_api android_api)).1 = true ↔ android_api < ndk_api)
  ∧ (raised (run (check_ndk_api ndk_api android_api)).1 = false
     ∧ length (warnings (run (check_ndk_api ndk_api android_api)).2) = 1%nat
     ↔ ndk_api <= android_api ∧ ndk_api < 21)
  ∧ (run (check_ndk_api ndk_api android_api) = (Return tt, [])
     ↔ ndk_api <= android_api ∧ 21 <= ndk_api)
  ∧ (ndk_api = android_api → 21 <= ndk_api →
     run (check_ndk_api ndk_api android_api) = (Return tt, [])).
Proof.
  unfold check_ndk_api, OLD_NDK_API_MESSAGE, MIN_NDK_API.
  destruct (Z.ltb_spec android_api ndk_api), (Z.ltb_spec ndk_api 21);
    repeat case_decide; run_M;
    intuition (first [lia | discriminate | congruence]).
Qed.

(** ** The letter of a minor version *)

Lemma minor_to_letter_dom : dom minor_to_letter = list_to_set (seqZ 0 26).
Proof. vm_compute. reflexivity. Qed.

Lemma minor_to_letter_letters :
  Forall (fun k => minor_to_letter !! k = Some (Py.chr (Py.ord "a" + k))) (seqZ 1 25).
Proof. apply (bool_decide_unpack _). vm_compute. reflexivity. Qed.

Lemma minor_to_letter_miss (minor : Z) :
  minor < 0 ∨ 26 <= minor → minor_to_letter !! minor = None.
Proof.
  intros Hout. apply not_elem_of_dom. rewrite minor_to_letter_dom.
  rewrite elem_of_list_to_set, elem_of_seqZ. lia.
Qed.

(** C6: the mapping from the minor version to the letter of the label:
    0 has the empty suffix, 1 has "b", 2 has "c", and so on in the order of
    the alphabet (the letter of [minor] is the one [minor] places after
    "a") up to 25, which has "z"; every other minor, so every minor from 26
    on, is not a key and the label falls back on the empty suffix. *)
Theorem C6_minor_to_letter (minor : Z) :
  minor_to_letter !! minor =
    (if decide (minor = 0) then Some ""
     else if decide (1 <= minor <= 25) then Some (Py.chr (Py.ord "a" + minor))
     else None)
  ∧ minor_to_letter !! 1 = Some "b"
  ∧ minor_to_letter !! 2 = Some "c"
  ∧ minor_to_letter !! 25 = Some "z"
  ∧ (26 <= minor →
     minor_to_letter !! minor = None ∧ default "" (minor_to_letter !! minor) = "")
  ∧ (∀ v : version.Version,
       version.minor v = minor →
       string_version v
       = Py.str (version.major v) +:+ default "" (minor_to_letter !! minor)).
Proof.
  split; [|split; [|split; [|split; [|split]]]]; try reflexivity.
  - repeat case_decide.
    + subst minor. reflexivity.
    + pose proof minor_to_letter_letters as Hall.
      rewrite Forall_forall in Hall. apply Hall, elem_of_seqZ. lia.
    + apply minor_to_letter_miss. lia.
  - intros Hbig. rewrite (minor_to_letter_miss minor) by lia. done.
  - intros v <-. reflexivity.
Qed.

(** ** Reading the revision *)

Lemma split_nonempty (sep : ascii) (s : string) : Py.split sep s ≠ [].
Proof.
  induction s as [|c s IH]; simpl; [done|].
  destruct (Ascii.eqb c sep); [done|].
  destruct (Py.split sep s); done.
Qed.

Lemma split_no_sep (sep : ascii) (s : string) :
  sep ∉ list_ascii_of_string s → Py.split sep s = [s].
Proof.
  induction s as [|c s IH]; simpl; [done|].
  intros Hnot. apply not_elem_of_cons in Hnot as [Hne Hnot].
  destruct (Ascii.eqb_spec c sep) as [->|_]; [done|].
  by rewrite IH.
Qed.

Lemma split_app (sep : ascii) (a b : string) :
  Py.split sep (a +:+ String sep b) = Py.split sep a ++ Py.split sep b.
Proof.
  induction a as [|c a IH]; simpl.
  - by rewrite Ascii.eqb_refl.
  - fold (String.app a (String sep b)).
    destruct (Ascii.eqb c sep); rewrite IH; [done|].
    pose proof (split_nonempty sep a).
    destruct (Py.split sep a); done.
Qed.

(** The value of a line is what follows its last ["="]. *)
Lemma last_item_split (key value : string) :
  "="%char ∉ list_ascii_of_string value →
  Py.last_item (Py.split "=" (key +:+ "=" +:+ value)) = value.
Proof.
  intros Hnot. unfold Py.last_item.
  change ("=" +:+ value) with (String "=" value).
  rewrite split_app, (split_no_sep _ value Hnot).
  by rewrite last_last.
Qed.

Lemma scan_lines_revision_line (lines : list string) (log : list log_record) :
  scan_lines lines log =
    match revision_line lines with
    | None => (Return None, log ++ [Log INFO PARSE_ERROR_NDK_MESSAGE])
    | Some line => revision_of_line line log
    end.
Proof.
  induction lines as [|line lines IH]; simpl; [done|].
  destruct (Py.startswith line "Pkg.Revision"); [done|]. apply IH.
Qed.

Lemma revision_line_first (before after : list string) (line : string) :
  Forall (fun l => Py.startswith l "Pkg.Revision" = false) before →
  Py.startswith line "Pkg.Revision" = true →
  revision_line (before ++ line :: after) = Some line.
Proof.
  unfold revision_line.
  induction 1 as [|l before Hl _ IH]; simpl; intros Hline.
  - by rewrite Hline.
  - rewrite Hl. by apply IH.
Qed.

Lemma revision_line_none (lines : list string) :
  revision_line lines = None
  ↔ Forall (fun l => Py.startswith l "Pkg.Revision" = false) lines.
Proof.
  unfold revision_line. induction lines as [|l lines IH]; simpl.
  - split; [constructor|done].
  - destruct (Py.startswith l "Pkg.Revision") eqn:Hl.
    + split; [done|]. intros Hall. apply Forall_cons in Hall as [Hl' _]. congruence.
    + rewrite IH. split; [by constructor|]. intros Hall. by apply Forall_cons in Hall as [_ ?].
Qed.

Lemma read_ndk_version_unfold (fs : files) (ndk_dir : string) (log : list log_record) :
  read_ndk_version fs ndk_dir log =
    match fs !! Py.join ndk_dir "source.properties" with
    | None => (Return None, log ++ [Log INFO UNKNOWN_NDK_MESSAGE])
    | Some ndk_data =>
        match revision_line (Py.splitlines ndk_data) with
        | None => (Return None, log ++ [Log INFO PARSE_ERROR_NDK_MESSAGE])
        | Some line => revision_of_line line log
        end
    end.
Proof.
  unfold read_ndk_version.
  destruct (fs !! Py.join ndk_dir "source.properties"); [|done].
  apply scan_lines_revision_line.
Qed.

Lemma startswith_iff (s p : string) :
  Py.startswith s p = true ↔ ∃ rest, s = p +:+ rest.
Proof.
  unfold Py.startswith. revert s.
  induction p as [|c p IH]; intros s; simpl.
  - destruct s; split; eauto.
  - destruct s as [|d s]; simpl.
    + split; [done|]. by intros [rest ?].
    + destruct (ascii_dec c d) as [->|Hne].
      * rewrite IH. split; intros [rest Hrest]; exists rest.
        -- by rewrite Hrest.
        -- by injection Hrest.
      * split; [done|]. intros [rest Hrest]. injection Hrest. congruence.
Qed.

Lemma startswith_space (c : ascii) (rest : string) :
  Py.isspace c = true → Py.startswith (String c rest) "Pkg.Revision" = false.
Proof.
  intros Hspace. unfold Py.startswith.
  change (String.prefix "Pkg.Revision" (String c rest))
    with (if ascii_dec "P" c then String.prefix "kg.Revision" rest else false).
  destruct (ascii_dec "P" c) as [<-|_]; [done|reflexivity].
Qed.

(** C8: a line is the revision line exactly when its text as it stands,
    nothing stripped, starts with ["Pkg.Revision"].  A line that starts with
    a whitespace character never is, so a file in which every line is empty
    or indented has no revision; any line that begins with the key is,
    also when the key goes on, as in ["Pkg.RevisionX=1.2"]. *)
Theorem C8_revision_line_is_a_raw_prefix
    (fs : files) (ndk_dir ndk_data : string) (log : list log_record)
    (Hfile : fs !! Py.join ndk_dir "source.properties" = Some ndk_data) :
  (∀ line : string,
     Py.startswith line "Pkg.Revision" = true ↔ ∃ rest, line = "Pkg.Revision" +:+ rest)
  ∧ (∀ (c : ascii) (rest : string),
       Py.isspace c = true → Py.startswith (String c rest) "Pkg.Revision" = false)
  ∧ (Forall (fun l => l = "" ∨ ∃ c rest, l = String c rest ∧ Py.isspace c = true)
            (Py.splitlines ndk_data) →
     read_ndk_version fs ndk_dir log
     = (Return None, log ++ [Log INFO PARSE_ERROR_NDK_MESSAGE]))
  ∧ (∀ (before after : list string) (rest : string),
       Py.splitlines ndk_data = before ++ ("Pkg.Revision" +:+ rest) :: after →
       Forall (fun l => ¬ ∃ rest', l = "Pkg.Revision" +:+ rest') before →
       read_ndk_version fs ndk_dir log
       = revision_of_line ("Pkg.Revision" +:+ rest) log)
  ∧ (ndk_data = "Pkg.RevisionX=1.2" →
     read_ndk_version fs ndk_dir log
     = (Return (Some (version.mkVersion 0 [1; 2] None None None None)), log))
  ∧ (ndk_data = " Pkg.Revision = 27.2" →
     read_ndk_version fs ndk_dir log
     = (Return None, log ++ [Log INFO PARSE_ERROR_NDK_MESSAGE])).
Proof.
  split; [|split; [|split; [|split; [|split]]]].
  - intros line. apply startswith_iff.
  - apply startswith_space.
  - intros Hall. rewrite read_ndk_version_unfold, Hfile.
    replace (revision_line (Py.splitlines ndk_data)) with (@None string); [done|].
    symmetry. apply revision_line_none.
    eapply Forall_impl; [exact Hall|]. simpl.
    intros l [->|(c & rest & -> & Hc)]; [reflexivity|by apply startswith_space].
  - intros before after rest Hlines Hbefore.
    rewrite read_ndk_version_unfold, Hfile, Hlines.
    rewrite revision_line_first; [done| |].
    + eapply Forall_impl; [exact Hbefore|]. simpl. intros l Hl.
      destruct (Py.startswith l "Pkg.Revision") eqn:E; [|done].
      by apply startswith_iff in E.
    + apply startswith_iff. by exists rest.
  - intros ->. rewrite read_ndk_version_unfold, Hfile. vm_compute. reflexivity.
  - intros ->. rewrite read_ndk_version_unfold, Hfile. vm_compute. reflexivity.
Qed.

Lemma C8_witness :
  ({["ndk/source.properties" := "Pkg.RevisionX=1.2"]} : files)
    !! Py.join "ndk" "source.properties" = Some "Pkg.RevisionX=1.2"
  ∧ read_ndk_version {["ndk/source.properties" := "Pkg.RevisionX=1.2"]} "ndk" []
    = (Return (Some (version.mkVersion 0 [1; 2] None None None None)), []).
Proof.
  assert (Hfile : ({["ndk/source.properties" := "Pkg.RevisionX=1.2"]} : files)
                    !! Py.join "ndk" "source.properties" = Some "Pkg.RevisionX=1.2")
    by (vm_compute; reflexivity).
  split; [exact Hfile|].
  apply (C8_revision_line_is_a_raw_prefix _ "ndk" _ [] Hfile). reflexivity.
Defined.

(** ** The NDK version *)

Lemma read_ndk_version_silent (fs : files) (ndk_dir : string) (v : version.Version)
    (log log' : list log_record) :
  read_ndk_version fs ndk_dir log = (Return (Some v), log') → log' = log.
Proof.
  rewrite read_ndk_version_unfold.
  destruct (fs !! _); [|done]. destruct (revision_line _); [|done].
  unfold revision_of_line. destruct (version.parse _); run_M; congruence.
Qed.

(** C2: when [read_ndk_version] returns a version, reading logs nothing and
    [check_ndk_version] logs the version found as information, then is
    fatal exactly when the major version is below 27; at 27 it returns with
    nothing more logged; above 27 it returns after two warnings. *)
Theorem C2_check_ndk_version
    (fs : files) (ndk_dir : string) (v : version.Version) (log log' : list log_record)
    (Hread : read_ndk_version fs ndk_dir log = (Return (Some v), log')) :
  let found := Log INFO ("Found NDK version " +:+ string_version v) in
  log' = log
  ∧ check_ndk_version fs ndk_dir log =
      (if decide (version.major v < 27) then
         (Raise (BuildInterruptingException
                   (NDK_LOWER_THAN_SUPPORTED_MESSAGE 27 NDK_DOWNLOAD_URL)
                   (Some ("Please download a supported NDK from " +:+ NDK_DOWNLOAD_URL
                          +:+ "." +:+ String "010" ""
                          +:+ "*** The currently recommended NDK version is "
                          +:+ RECOMMENDED_NDK_VERSION +:+ " ***"))),
          log ++ [found])
       else if decide (27 < version.major v) then
         (Return tt,
          log ++ [found;
                  Log WARNING (RECOMMENDED_NDK_VERSION_MESSAGE RECOMMENDED_NDK_VERSION);
                  Log WARNING NEW_NDK_MESSAGE])
       else (Return tt, log ++ [found]))
  ∧ (is_fatal (check_ndk_version fs ndk_dir log).1 = true ↔ version.major v < 27)
  ∧ (raised (check_ndk_version fs ndk_dir log).1 = true ↔ version.major v < 27)
  ∧ (check_ndk_version fs ndk_dir log = (Return tt, log ++ [found])
     ↔ version.major v = 27)
  ∧ (raised (check_ndk_version fs ndk_dir log).1 = false
     ∧ (∃ w1 w2, (check_ndk_version fs ndk_dir log).2
                 = log ++ [found; Log WARNING w1; Log WARNING w2])
     ↔ 27 < version.major v).
Proof.
  intros found.
  pose proof (read_ndk_version_silent _ _ _ _ _ Hread) as ->.
  assert (Hlen : ∀ a b c : log_record, log ++ [a] ≠ log ++ [a; b; c]).
  { intros a b c Heq. apply (f_equal length) in Heq.
    rewrite !length_app in Heq. simpl in Heq. lia. }
  unfold check_ndk_version, mbind, M_bind. rewrite Hread.
  fold (@mbind M _ unit unit). unfold MIN_NDK_VERSION, MAX_NDK_VERSION.
  subst found. unfold CURRENT_NDK_VERSION_MESSAGE.
  destruct (Z.ltb_spec (version.major v) 27), (Z.ltb_spec 27 (version.major v));
    repeat case_decide; try lia; run_M.
  all: repeat split; try done; try lia; try (intros [_ ?]; lia).
  all: try (intros [? _]; discriminate).
  all: try (intros Heq; injection Heq; intros Heq';
            first [by apply Hlen in Heq' | by symmetry in Heq'; apply Hlen in Heq']).
  all: try (intros (_ & w1 & w2 & Heq); by apply Hlen in Heq).
  do 2 eexists; reflexivity.
Qed.

Lemma C2_witness :
  read_ndk_version {["ndk/source.properties" := "Pkg.Revision = 27.2.12479018"]} "ndk" []
  = (Return (Some (version.mkVersion 0 [27; 2; 12479018] None None None None)), [])
  ∧ check_ndk_version {["ndk/source.properties" := "Pkg.Revision = 27.2.12479018"]} "ndk" []
    = (Return tt, [Log INFO "Found NDK version 27c"]).
Proof.
  assert (Hread :
    read_ndk_version {["ndk/source.properties" := "Pkg.Revision = 27.2.12479018"]} "ndk" []
    = (Return (Some (version.mkVersion 0 [27; 2; 12479018] None None None None)), []))
    by (vm_compute; reflexivity).
  split; [exact Hread|].
  apply (C2_check_ndk_version _ _ _ _ _ Hread). reflexivity.
Defined.

(** The version that cannot be read: the file cannot be opened, or no line
    begins with the key.  [check_ndk_version] then warns twice and
    returns. *)
Lemma check_ndk_version_unknown (fs : files) (ndk_dir : string) (log : list log_record) :
  match fs !! Py.join ndk_dir "source.properties" with
  | None => True
  | Some ndk_data => revision_line (Py.splitlines ndk_data) = None
  end →
  ∃ notice,
    read_ndk_version fs ndk_dir log = (Return None, log ++ [Log INFO notice])
    ∧ check_ndk_version fs ndk_dir log
      = (Return tt,
         log ++ [Log INFO notice;
                 Log WARNING (READ_ERROR_NDK_MESSAGE ndk_dir);
                 Log WARNING (ENSURE_RIGHT_NDK_MESSAGE 27 "28c" NDK_DOWNLOAD_URL)]).
Proof.
  intros Hunknown.
  assert (∃ notice, read_ndk_version fs ndk_dir log = (Return None, log ++ [Log INFO notice]))
    as [notice Hread].
  { rewrite read_ndk_version_unfold. destruct (fs !! _); [rewrite Hunknown|]; eauto. }
  exists notice. split; [done|].
  unfold check_ndk_version, mbind, M_bind. rewrite Hread.
  fold (@mbind M _ unit unit). by run_M.
Qed.

(** The revision line whose value is no version: [InvalidVersion] leaves
    both functions. *)
Lemma check_ndk_version_invalid
    (fs : files) (ndk_dir ndk_data line : string) (log : list log_record) :
  fs !! Py.join ndk_dir "source.properties" = Some ndk_data →
  revision_line (Py.splitlines ndk_data) = Some line →
  version.parse (Py.strip (Py.last_item (Py.split "=" line))) = None →
  read_ndk_version fs ndk_dir log
  = (Raise (InvalidVersion (Py.strip (Py.last_item (Py.split "=" line)))), log)
  ∧ check_ndk_version fs ndk_dir log
    = (Raise (InvalidVersion (Py.strip (Py.last_item (Py.split "=" line)))), log).
Proof.
  intros Hfile Hline Hparse.
  assert (read_ndk_version fs ndk_dir log
          = (Raise (InvalidVersion (Py.strip (Py.last_item (Py.split "=" line)))), log))
    as Hread.
  { rewrite read_ndk_version_unfold, Hfile, Hline.
    unfold revision_of_line. simpl. by rewrite Hparse. }
  split; [done|].
  unfold check_ndk_version, mbind, M_bind. by rewrite Hread.
Qed.

(** C1: on a properties file whose revision does not parse as a version,
    here the line ["Pkg.Revision = r27c"], neither function returns:
    [InvalidVersion] is raised by [read_ndk_version], which handles only
    [IOError], and passes through [check_ndk_version] before it logs
    anything. *)
Theorem C1_unparseable_revision_raises :
  let ndk_data := "Pkg.Desc = Android NDK" +:+ String "010" "Pkg.Revision = r27c" in
  let fs : files := {["ndk/source.properties" := ndk_data]} in
  run (read_ndk_version fs "ndk") = (Raise (InvalidVersion "r27c"), [])
  ∧ run (check_ndk_version fs "ndk") = (Raise (InvalidVersion "r27c"), [])
  ∧ raised (run (check_ndk_version fs "ndk")).1 = true
  ∧ warnings (run (check_ndk_version fs "ndk")).2 = [].
Proof. vm_compute. done. Qed.

(** ** Calls in a row *)

Lemma uniform_ret {A : Type} (a : A) : uniform (mret a).
Proof. exists (Return a), []. intros log. by rewrite app_nil_r. Qed.

Lemma uniform_raise {A : Type} (e : exn) : uniform (@raise A e).
Proof. exists (Raise e), []. intros log. by rewrite app_nil_r. Qed.

Lemma uniform_info (msg : string) : uniform (info msg).
Proof. by exists (Return tt), [Log INFO msg]. Qed.

Lemma uniform_warning (msg : string) : uniform (warning msg).
Proof. by exists (Return tt), [Log WARNING msg]. Qed.

Lemma uniform_bind {A B : Type} (m : M A) (k : A → M B) :
  uniform m → (∀ a, uniform (k a)) → uniform (m ≫= k).
Proof.
  intros (o & added & Hm) Hk. destruct o as [a|e].
  - destruct (Hk a) as (o' & added' & Hka).
    exists o', (added ++ added'). intros log.
    unfold mbind, M_bind. by rewrite Hm, Hka, app_assoc.
  - exists (Raise e), added. intros log.
    unfold mbind, M_bind. by rewrite Hm.
Qed.

Create HintDb uniform.
#[local] Hint Resolve uniform_ret uniform_raise uniform_info uniform_warning : uniform.

Ltac prove_uniform :=
  repeat first
    [ apply uniform_bind; [|intros ?]
    | progress eauto with uniform
    | match goal with
      | |- uniform (if ?b then _ else _) => destruct b
      | |- uniform (match ?o with Some _ => _ | None => _ end) => destruct o
      end ].

Lemma uniform_repeatable {A : Type} (m : M A) : uniform m → repeatable m.
Proof.
  intros (o & added & Hm) log. simpl. rewrite !Hm. simpl. eauto.
Qed.

Lemma uniform_scan_lines (lines : list string) : uniform (scan_lines lines).
Proof. induction lines as [|line lines IH]; simpl; prove_uniform. Qed.

Lemma uniform_read_ndk_version (fs : files) (ndk_dir : string) :
  uniform (read_ndk_version fs ndk_dir).
Proof.
  unfold read_ndk_version.
  destruct (fs !! _); [apply uniform_scan_lines|prove_uniform].
Qed.

Lemma uniform_check_ndk_version (fs : files) (ndk_dir : string) :
  uniform (check_ndk_version fs ndk_dir).
Proof.
  unfold check_ndk_version.
  apply uniform_bind; [apply uniform_read_ndk_version|]. intros ?. prove_uniform.
Qed.

(** C10: every check gives the same outcome and logs the same records when
    it is called again with the same arguments (and, for the NDK version,
    the same files): neither depends on the log, the only thing a call
    changes. *)
Theorem C10_checks_are_repeatable
    (fs : files) (ndk_dir : string) (api : Z) (arch : string)
    (ndk_api android_api : Z) (sys_version_info : version_info) (names : python_names) :
  repeatable (read_ndk_version fs ndk_dir)
  ∧ repeatable (check_ndk_version fs ndk_dir)
  ∧ repeatable (check_target_api api arch)
  ∧ repeatable (check_ndk_api ndk_api android_api)
  ∧ repeatable (check_python_version sys_version_info names).
Proof.
  split; [|split; [|split; [|split]]]; apply uniform_repeatable.
  - apply uniform_read_ndk_version.
  - apply uniform_check_ndk_version.
  - unfold check_target_api. prove_uniform.
  - unfold check_ndk_api. prove_uniform.
  - unfold check_python_version. prove_uniform.
Qed.

(** * The version of the interpreter *)

(** ** Strings *)

Lemma string_app_cons (c : ascii) (s t : string) :
  String c s +:+ t = String c (s +:+ t).
Proof. reflexivity. Qed.

Lemma string_app_nil_l (s : string) : "" +:+ s = s.
Proof. reflexivity. Qed.

Lemma string_app_nil_r (s : string) : s +:+ "" = s.
Proof. induction s as [|c s IH]; [done|]. by rewrite string_app_cons, IH. Qed.

Lemma string_app_assoc (s t u : string) : (s +:+ t) +:+ u = s +:+ t +:+ u.
Proof. induction s as [|c s IH]; [done|]. by rewrite !string_app_cons, IH. Qed.

Lemma substring_all (s : string) : String.substring 0 (String.length s) s = s.
Proof. induction s as [|c s IH]; simpl; [done|]. by rewrite IH. Qed.

Lemma list_ascii_app (s t : string) :
  list_ascii_of_string (s +:+ t) = list_ascii_of_string s ++ list_ascii_of_string t.
Proof.
  induction s as [|c s IH]; [done|]. rewrite string_app_cons. simpl. by rewrite IH.
Qed.

(** ** The matcher *)

Section Matcher.
Import Re.

Lemma flat_map_nil {A B : Type} (f : A → list B) (l : list A) :
  (∀ x, x ∈ l → f x = []) → flat_map f l = [].
Proof.
  induction l as [|x l IH]; simpl; [done|]. intros Hf.
  rewrite (Hf x) by left. apply IH. intros y Hy. apply Hf. by right.
Qed.

Lemma head_flat_map {A B : Type} (f : A → list B) (l : list A) (x : A) (y : B) :
  head l = Some x → head (f x) = Some y → head (flat_map f l) = Some y.
Proof.
  destruct l as [|x' l]; simpl; [done|]. intros [= ->].
  destruct (f x); simpl; [done|]. done.
Qed.

Lemma head_app {A : Type} (l k : list A) (x : A) :
  head l = Some x → head (l ++ k) = Some x.
Proof. by destruct l. Qed.

(** The bound on the iterations does not matter once it is the length
    of the string. *)
Lemma star_loop_fuel (body : string → gmap string string → list state)
    (n m : nat) (s : string) (g : gmap string string) :
  (String.length s ≤ n)%nat → (String.length s ≤ m)%nat →
  star_loop body n s g = star_loop body m s g.
Proof.
  revert m s g. induction n as [|n IH]; intros [|m] s g Hn Hm; simpl; try done.
  - rewrite flat_map_nil; [done|]. intros st _.
    destruct (Nat.ltb_spec (String.length st.1) (String.length s)); [lia|done].
  - rewrite flat_map_nil; [done|]. intros st _.
    destruct (Nat.ltb_spec (String.length st.1) (String.length s)); [lia|done].
  - f_equal. apply flat_map_ext. intros st.
    destruct (Nat.ltb_spec (String.length st.1) (String.length s)); [|done].
    apply IH; lia.
Qed.

(** [r*] is one more [r] followed by [r*], or nothing. *)
Lemma rmatch_star (r : regex) (s : string) (g : gmap string string) :
  rmatch (Star r) s g =
    flat_map (fun st : state =>
                if Nat.ltb (String.length st.1) (String.length s)
                then rmatch (Star r) st.1 st.2 else [])
             (rmatch r s g)
    ++ [(s, g)].
Proof.
  cbn [rmatch]. generalize (eq_refl (String.length s)).
  generalize (String.length s) at 1 3. intros [|n] Hlen; cbn [star_loop].
  - rewrite <- Hlen. by rewrite flat_map_nil.
  - f_equal. apply flat_map_ext. intros st.
    destruct (Nat.ltb_spec (String.length st.1) (String.length s)) as [Hlt|]; [|done].
    apply star_loop_fuel; lia.
Qed.

Lemma rmatch_cls_stops (p : ascii → bool) (s : string) (g : gmap string string) :
  stops p s → rmatch (Cls p) s g = [].
Proof. destruct s as [|c s]; simpl; [done|]. by intros ->. Qed.

Lemma rmatch_star_cls_stops (p : ascii → bool) (s : string) (g : gmap string string) :
  stops p s → rmatch (Star (Cls p)) s g = [(s, g)].
Proof. intros Hs. by rewrite rmatch_star, rmatch_cls_stops. Qed.

Lemma rmatch_star_cls_cons (p : ascii → bool) (c : ascii) (s : string)
    (g : gmap string string) :
  p c = true →
  rmatch (Star (Cls p)) (String c s) g
  = rmatch (Star (Cls p)) s g ++ [(String c s, g)].
Proof.
  intros Hc. rewrite rmatch_star. cbn [rmatch]. rewrite Hc.
  cbn [flat_map fst snd]. rewrite app_nil_r.
  destruct (Nat.ltb_spec (String.length s) (String.length (String c s))) as [|Hge];
    [done|]. simpl in Hge. lia.
Qed.

(** A greedy class star reads all of [d] first. *)
Lemma head_star_cls (p : ascii → bool) (d rest : string) (g : gmap string string) :
  Forall (fun c => p c = true) (list_ascii_of_string d) → stops p rest →
  head (rmatch (Star (Cls p)) (d +:+ rest) g) = Some (rest, g).
Proof.
  intros Hd Hrest. induction d as [|c d IH]; simpl in Hd.
  - by rewrite string_app_nil_l, rmatch_star_cls_stops.
  - apply Forall_cons in Hd as [Hc Hd].
    rewrite string_app_cons, rmatch_star_cls_cons by done.
    apply head_app. by apply IH.
Qed.

(** Whatever a class star reads of [d], what is left is an end of [d]
    followed by [rest]. *)
Lemma elem_of_star_cls (p : ascii → bool) (d rest : string) (g : gmap string string)
    (st : state) :
  Forall (fun c => p c = true) (list_ascii_of_string d) → stops p rest →
  st ∈ rmatch (Star (Cls p)) (d +:+ rest) g →
  st.2 = g ∧ ∃ d1 d2, d = d1 +:+ d2 ∧ st.1 = d2 +:+ rest.
Proof.
  intros Hd Hrest. revert st. induction d as [|c d IH]; simpl in Hd; intros st.
  - rewrite string_app_nil_l, rmatch_star_cls_stops by done.
    intros ->%list_elem_of_singleton.
    split; [done|]. by exists "", "".
  - apply Forall_cons in Hd as [Hc Hd].
    rewrite string_app_cons, rmatch_star_cls_cons by done.
    intros [Hin| ->%list_elem_of_singleton]%elem_of_app.
    + destruct (IH Hd st Hin) as (Hg & d1 & d2 & -> & Hst).
      split; [done|]. by exists (String c d1), d2.
    + split; [done|]. by exists "", (String c d).
Qed.
End Matcher.

Section Pattern.
Import Re version.
Local Open Scope regex_scope.

Lemma head_digits (c : ascii) (d rest : string) (g : gmap string string) :
  digit_string (String c d) → stops Py.isdigit rest →
  head (rmatch digits (String c d +:+ rest) g) = Some (rest, g).
Proof.
  intros [Hc Hd]%Forall_cons Hrest. unfold digits, Plus.
  rewrite string_app_cons. cbn [rmatch]. rewrite Hc. cbn [flat_map fst snd].
  rewrite app_nil_r. by apply head_star_cls.
Qed.

Lemma elem_of_digits (d rest : string) (g : gmap string string) (st : state) :
  digit_string d → stops Py.isdigit rest →
  st ∈ rmatch digits (d +:+ rest) g →
  st.2 = g ∧ ∃ d1 d2, d = d1 +:+ d2 ∧ st.1 = d2 +:+ rest.
Proof.
  intros Hd Hrest. unfold digits, Plus. destruct d as [|c d].
  - rewrite string_app_nil_l.
    change (rmatch (Cls Py.isdigit >> Star (Cls Py.isdigit)) rest g)
      with (flat_map (fun st : state => rmatch (Star (Cls Py.isdigit)) st.1 st.2)
                     (rmatch (Cls Py.isdigit) rest g)).
    rewrite rmatch_cls_stops by done. by intros ?%elem_of_nil.
  - apply Forall_cons in Hd as [Hc Hd].
    rewrite string_app_cons. cbn [rmatch]. rewrite Hc. cbn [flat_map fst snd].
    rewrite app_nil_r. intros Hin.
    destruct (elem_of_star_cls _ _ _ _ _ Hd Hrest Hin) as (Hg & d1 & d2 & -> & Hst).
    split; [done|]. by exists (String c d1), d2.
Qed.

(** No epoch is read from digits that a ["."] follows. *)
Lemma rmatch_epoch_none (d rest : string) (g : gmap string string) :
  digit_string d →
  rmatch epoch_segment (d +:+ String "." rest) g = [].
Proof.
  intros Hd. unfold epoch_segment. cbn [rmatch]. apply flat_map_nil. intros st Hst.
  apply list_elem_of_fmap in Hst as (st' & -> & Hst').
  apply elem_of_digits in Hst' as (_ & d1 & d2 & -> & Hrest); [|done..].
  cbn [fst snd]. rewrite Hrest. unfold digit_string in Hd.
  rewrite list_ascii_app in Hd. apply Forall_app in Hd as [_ Hd2].
  destruct d2 as [|c d2].
  - reflexivity.
  - apply Forall_cons in Hd2 as [Hc _]. rewrite string_app_cons.
    cbn [Lit Chr rmatch].
    destruct (Ascii.eqb_spec (Py.lower_char c) (Py.lower_char "!")) as [Heq|]; [|done].
    exfalso. clear -Hc Heq.
    destruct c as [[] [] [] [] [] [] [] []]; vm_compute in Hc, Heq; discriminate.
Qed.

Lemma head_map {A B : Type} (f : A → B) (l : list A) (x : A) :
  head l = Some x → head (map f l) = Some (f x).
Proof. destruct l; simpl; [done|]. by intros [= ->]. Qed.

Lemma rmatch_seq (r1 r2 : regex) (s : string) (g : gmap string string) :
  rmatch (r1 >> r2) s g
  = flat_map (fun st : state => rmatch r2 st.1 st.2) (rmatch r1 s g).
Proof. reflexivity. Qed.

Lemma rmatch_opt (r : regex) (s : string) (g : gmap string string) :
  rmatch (Opt r) s g = rmatch r s g ++ [(s, g)].
Proof. reflexivity. Qed.

Lemma rmatch_chr_self (c : ascii) (s : string) (g : gmap string string) :
  rmatch (Chr c) (String c s) g = [(s, g)].
Proof. unfold Chr. cbn [rmatch]. by rewrite Ascii.eqb_refl. Qed.

Lemma digit_stops_space (c : ascii) (s : string) :
  Py.isdigit c = true → stops Py.isspace (String c s).
Proof.
  intros Hc. simpl. destruct c as [[] [] [] [] [] [] [] []]; vm_compute in Hc |- *;
    first [reflexivity | discriminate].
Qed.

Lemma digit_not_v (c : ascii) (s : string) (g : gmap string string) :
  Py.isdigit c = true → rmatch (Lit "v") (String c s) g = [].
Proof.
  intros Hc. cbn [Lit Chr rmatch].
  destruct (Ascii.eqb_spec (Py.lower_char c) (Py.lower_char "v")) as [Heq|]; [|done].
  exfalso. destruct c as [[] [] [] [] [] [] [] []]; vm_compute in Hc, Heq; discriminate.
Qed.

(** The release segment reads two numbers and the ["."] between them. *)
Lemma head_release (d1 d2 : string) (g : gmap string string) :
  d1 ≠ "" → digit_string d1 → d2 ≠ "" → digit_string d2 →
  head (rmatch release_segment (d1 +:+ String "." d2) g)
  = Some ("", <["release" := d1 +:+ String "." d2]> g).
Proof.
  intros Hne1 Hd1 Hne2 Hd2.
  destruct d1 as [|c1 d1]; [done|]. destruct d2 as [|c2 d2]; [done|].
  unfold release_segment.
  change (rmatch (Grp "release" (digits >> Star (Lit "." >> digits))) ?s g)
    with (map (fun st : state => (st.1, <["release" := consumed s st.1]> st.2))
              (rmatch (digits >> Star (Lit "." >> digits)) s g)).
  erewrite head_map; cycle 1.
  { rewrite rmatch_seq. eapply head_flat_map.
    - by apply head_digits.
    - cbn [fst snd]. rewrite rmatch_star. apply head_app.
      eapply head_flat_map.
      + rewrite rmatch_seq. change (Lit ".") with (Chr ".").
        rewrite rmatch_chr_self. cbn [flat_map fst snd]. rewrite app_nil_r.
        rewrite <- (string_app_nil_r (String c2 d2)). by apply head_digits.
      + reflexivity. }
  cbn [fst snd]. unfold consumed. cbn [String.length].
  by rewrite Nat.sub_0_r, substring_all.
Qed.

Lemma rmatch_suffix_empty (g : gmap string string) :
  rmatch suffix_segments "" g = [("", g)].
Proof. vm_compute. reflexivity. Qed.

Lemma rmatch_end_empty (g : gmap string string) :
  rmatch (Star (Cls Py.isspace) >> Eos) "" g = [("", g)].
Proof. vm_compute. reflexivity. Qed.

(** On [d1.d2] the pattern of versions captures the release and nothing
    else. *)
Lemma search_release (d1 d2 : string) :
  d1 ≠ "" → digit_string d1 → d2 ≠ "" → digit_string d2 →
  search _regex (d1 +:+ String "." d2)
  = Some (<["release" := d1 +:+ String "." d2]> ∅).
Proof.
  intros Hne1 Hd1 Hne2 Hd2.
  assert (head (rmatch _regex (d1 +:+ String "." d2) ∅)
          = Some ("", <["release" := d1 +:+ String "." d2]> ∅)) as Hhead.
  { unfold _regex. rewrite rmatch_seq.
    destruct d1 as [|c1 d1]; [done|]. pose proof Hd1 as [Hc1 _]%Forall_cons.
    rewrite string_app_cons, rmatch_star_cls_stops by by apply digit_stops_space.
    cbn [flat_map fst snd]. rewrite app_nil_r.
    rewrite rmatch_seq. eapply head_flat_map.
    - unfold VERSION_PATTERN.
      rewrite rmatch_seq, rmatch_opt, digit_not_v by done.
      cbn [app flat_map fst snd]. rewrite app_nil_r.
      rewrite rmatch_seq, rmatch_opt, <- string_app_cons, rmatch_epoch_none by done.
      cbn [app flat_map fst snd]. rewrite app_nil_r.
      rewrite rmatch_seq. eapply head_flat_map; [by apply head_release|].
      cbn [fst snd]. by rewrite rmatch_suffix_empty.
    - cbn [fst snd]. by rewrite rmatch_end_empty. }
  unfold search. destruct (rmatch _regex _ ∅); simpl in Hhead; [done|].
  by injection Hhead as ->.
Qed.

Lemma digit_string_no_dot (d : string) :
  digit_string d → "."%char ∉ list_ascii_of_string d.
Proof.
  unfold digit_string. rewrite Forall_forall. intros Hd Hin.
  by specialize (Hd _ Hin).
Qed.

(** [Version("d1.d2")] *)
Lemma Version_of_release (d1 d2 : string) :
  d1 ≠ "" → digit_string d1 → d2 ≠ "" → digit_string d2 →
  Version_of (d1 +:+ "." +:+ d2)
  = Some (mkVersion 0 [Py.int d1; Py.int d2] None None None None).
Proof.
  intros Hne1 Hd1 Hne2 Hd2. unfold Version_of.
  change ("." +:+ d2) with (String "." d2).
  rewrite search_release by done.
  rewrite lookup_insert_eq.
  rewrite !lookup_insert_ne, !lookup_empty by done.
  cbn [default truthy _parse_letter_version _parse_local_version or_group].
  unfold id. rewrite split_app.
  rewrite !split_no_sep by by apply digit_string_no_dot.
  reflexivity.
Qed.

Lemma digit_string_of_uint (d : Decimal.uint) :
  digit_string (NilEmpty.string_of_uint d).
Proof. induction d; simpl; constructor; done. Qed.

Lemma str_digit_string (n : Z) :
  0 <= n → Py.str n ≠ "" ∧ digit_string (Py.str n).
Proof.
  intros Hn. unfold Py.str. destruct n as [|p|p]; [| |lia].
  - split; [done|]. repeat constructor.
  - cbn [Z.to_int NilZero.string_of_int]. pose proof (DecimalPos.Unsigned.to_uint_nonnil p).
    unfold NilZero.string_of_uint.
    destruct (Pos.to_uint p) eqn:E; try done;
      (split; [done|rewrite <- E; apply digit_string_of_uint]).
Qed.

Lemma int_str (n : Z) : 0 <= n → Py.int (Py.str n) = n.
Proof.
  intros Hn. unfold Py.int, Py.str. destruct n as [|p|p]; [done| |lia].
  cbn [Z.to_int NilZero.string_of_int].
  rewrite NilZero.usu by apply DecimalPos.Unsigned.to_uint_nonnil.
  unfold Z.of_uint. by rewrite DecimalPos.Unsigned.of_to.
Qed.

(** [Version(f"{major}.{minor}")] *)
Lemma Version_of_major_minor (major minor : Z) :
  0 <= major → 0 <= minor →
  Version_of (Py.str major +:+ "." +:+ Py.str minor)
  = Some (mkVersion 0 [major; minor] None None None None).
Proof.
  intros Hmajor Hminor.
  destruct (str_digit_string major Hmajor), (str_digit_string minor Hminor).
  rewrite Version_of_release by done.
  by rewrite !int_str by done.
Qed.
End Pattern.

(** ** The check of the interpreter *)

Lemma to_str_major_minor (major minor : Z) :
  version.to_str (version.mkVersion 0 [major; minor] None None None None)
  = Py.str major +:+ "." +:+ Py.str minor.
Proof.
  unfold version.to_str, Py.concat. cbn.
  by rewrite !string_app_nil_r, string_app_nil_l.
Qed.

(** Below 3.6: the release, without its trailing zeros, comes first in the
    order of tuples. *)
Lemma lt_python_36 (major minor : Z) :
  0 <= major → 0 <= minor →
  version.lt (version.mkVersion 0 [major; minor] None None None None)
             (version.mkVersion 0 [3; 6] None None None None)
  = bool_decide (major < 3 ∨ (major = 3 ∧ minor < 6)).
Proof.
  intros Hmajor Hminor. unfold version.lt, version.cmp_key, version._cmpkey.
  cbn [version.epoch version.release version.pre version.post version.dev
       version.local version.key_epoch version.key_release version.key_pre
       version.key_post version.key_dev version.key_local rev app
       version.dropwhile_zero].
  change (0 ?= 0) with Eq. cbv iota.
  destruct minor as [|pminor|pminor]; [| |lia];
    (destruct major as [|pmajor|pmajor]; [| |lia]);
    cbn [rev app version.dropwhile_zero version.cmp_tuple].
  - by rewrite bool_decide_eq_true_2 by lia.
  - destruct (Z.compare_spec (Z.pos pmajor) 3); case_bool_decide; (done || lia).
  - by rewrite bool_decide_eq_true_2 by lia.
  - destruct (Z.compare_spec (Z.pos pmajor) 3), (Z.compare_spec (Z.pos pminor) 6);
      case_bool_decide; (done || lia).
Qed.

Lemma import_python_names_nonneg (sys_version_info : version_info) :
  0 <= vi_major sys_version_info → 0 <= vi_minor sys_version_info →
  import_python_names sys_version_info
  = Some {|
      MIN_PYTHON_VERSION := version.mkVersion 0 [3; 6] None None None None;
      CURRENT_PYTHON_VERSION :=
        version.mkVersion 0 [vi_major sys_version_info; vi_minor sys_version_info]
                          None None None None;
      PY2_ERROR_TEXT :=
        "python-for-android no longer supports Python 2. "
        +:+ "Upgrade to Python 3.6 or higher.";
      PY_VERSION_ERROR_TEXT :=
        "Your Python version " +:+ Py.str (vi_major sys_version_info) +:+ "."
        +:+ Py.str (vi_minor sys_version_info) +:+ " is not supported, "
        +:+ "please upgrade to 3.6 or higher."
    |}.
Proof.
  intros Hmajor Hminor. unfold import_python_names.
  change (version.Version_of "3.6")
    with (Some (version.mkVersion 0 [3; 6] None None None None)).
  rewrite Version_of_major_minor by done. cbn [mbind option_bind].
  rewrite !to_str_major_minor, !string_app_assoc. reflexivity.
Qed.

(** C7: for an interpreter of version [major.minor],
    [check_python_version] is fatal with a text that is the same for every
    version when [major] is 2; otherwise, when [major.minor] is below 3.6, it
    is fatal with another text, which names the version found and the
    minimum 3.6; from 3.6 on it returns and logs nothing. *)
Theorem C7_check_python_version (sys_version_info : version_info)
    (Hmajor : 0 <= vi_major sys_version_info)
    (Hminor : 0 <= vi_minor sys_version_info) :
  let major := vi_major sys_version_info in
  let minor := vi_minor sys_version_info in
  ∃ names,
    import_python_names sys_version_info = Some names
    ∧ PY2_ERROR_TEXT names
      = "python-for-android no longer supports Python 2. Upgrade to Python 3.6 or higher."
    ∧ PY_VERSION_ERROR_TEXT names
      = "Your Python version " +:+ Py.str major +:+ "." +:+ Py.str minor
        +:+ " is not supported, please upgrade to 3.6 or higher."
    ∧ PY_VERSION_ERROR_TEXT names ≠ PY2_ERROR_TEXT names
    ∧ (∀ log,
         check_python_version sys_version_info names log =
           if decide (major = 2) then
             (Raise (BuildInterruptingException (PY2_ERROR_TEXT names) None), log)
           else if decide (major < 3 ∨ (major = 3 ∧ minor < 6)) then
             (Raise (BuildInterruptingException (PY_VERSION_ERROR_TEXT names) None), log)
           else (Return tt, log))
    ∧ (is_fatal (run (check_python_version sys_version_info names)).1 = true
       ↔ major < 3 ∨ (major = 3 ∧ minor < 6))
    ∧ (run (check_python_version sys_version_info names) = (Return tt, [])
       ↔ 3 < major ∨ (major = 3 ∧ 6 <= minor)).
Proof.
  intros major minor. eexists. split; [by apply import_python_names_nonneg|].
  cbn [PY2_ERROR_TEXT PY_VERSION_ERROR_TEXT].
  assert (∀ log,
    check_python_version sys_version_info
      {| MIN_PYTHON_VERSION := version.mkVersion 0 [3; 6] None None None None;
         CURRENT_PYTHON_VERSION := version.mkVersion 0 [major; minor] None None None None;
         PY2_ERROR_TEXT :=
           "python-for-android no longer supports Python 2. "
           +:+ "Upgrade to Python 3.6 or higher.";
         PY_VERSION_ERROR_TEXT :=
           "Your Python version " +:+ Py.str major +:+ "." +:+ Py.str minor
           +:+ " is not supported, " +:+ "please upgrade to 3.6 or higher." |} log
    = if decide (major = 2) then
        (Raise (BuildInterruptingException
                  ("python-for-android no longer supports Python 2. "
                   +:+ "Upgrade to Python 3.6 or higher.") None), log)
      else if decide (major < 3 ∨ (major = 3 ∧ minor < 6)) then
        (Raise (BuildInterruptingException
                  ("Your Python version " +:+ Py.str major +:+ "." +:+ Py.str minor
                   +:+ " is not supported, " +:+ "please upgrade to 3.6 or higher.")
                  None), log)
      else (Return tt, log)) as Hcheck.
  { intros log. unfold check_python_version.
    cbn [MIN_PYTHON_VERSION CURRENT_PYTHON_VERSION PY2_ERROR_TEXT PY_VERSION_ERROR_TEXT].
    rewrite lt_python_36 by done. fold major minor.
    destruct (Z.eqb_spec major 2);
      [by rewrite decide_True by done|rewrite decide_False by done].
    destruct (decide (major < 3 ∨ (major = 3 ∧ minor < 6)));
      [by rewrite bool_decide_eq_true_2|by rewrite bool_decide_eq_false_2]. }
  split; [reflexivity|]. split; [reflexivity|]. split; [done|].
  split; [exact Hcheck|]. unfold run. rewrite Hcheck.
  destruct (decide (major = 2)), (decide (major < 3 ∨ (major = 3 ∧ minor < 6)));
    simpl; intuition (first [lia | discriminate | congruence]).
Qed.

Lemma C7_witness :
  0 <= 3 ∧ 0 <= 5
  ∧ ∃ names,
      import_python_names {| vi_major := 3; vi_minor := 5 |} = Some names
      ∧ is_fatal (run (check_python_version {| vi_major := 3; vi_minor := 5 |} names)).1
        = true.
Proof.
  split; [lia|]. split; [lia|].
  destruct (C7_check_python_version {| vi_major := 3; vi_minor := 5 |})
    as (names & Himport & _ & _ & _ & _ & Hfatal & _); [simpl; lia..|].
  exists names. split; [exact Himport|]. apply Hfatal. simpl. lia.
Defined.

(** C9: the thresholds of the module: NDK major at least 27 and at most
    27, recommended NDK ["28c"], target API at least 30 and recommended 34,
    no armeabi from API 21, NDK API at least 21 and recommended 24, and
    interpreter at least 3.6, whatever the running interpreter is. *)
Theorem C9_constants (sys_version_info : version_info)
    (Hmajor : 0 <= vi_major sys_version_info)
    (Hminor : 0 <= vi_minor sys_version_info) :
  MIN_NDK_VERSION = 27
  ∧ MAX_NDK_VERSION = 27
  ∧ RECOMMENDED_NDK_VERSION = "28c"
  ∧ MIN_TARGET_API = 30
  ∧ RECOMMENDED_TARGET_API = 34
  ∧ ARMEABI_MAX_TARGET_API = 21
  ∧ MIN_NDK_API = 21
  ∧ RECOMMENDED_NDK_API = 24
  ∧ ∃ names,
      import_python_names sys_version_info = Some names
      ∧ MIN_PYTHON_VERSION names = version.mkVersion 0 [3; 6] None None None None
      ∧ version.major (MIN_PYTHON_VERSION names) = 3
      ∧ version.minor (MIN_PYTHON_VERSION names) = 6
      ∧ version.to_str (MIN_PYTHON_VERSION names) = "3.6".
Proof.
  do 8 (split; [reflexivity|]).
  eexists. split; [by apply import_python_names_nonneg|]. done.
Qed.

Lemma C9_witness :
  0 <= 3 ∧ 0 <= 11
  ∧ ∃ names,
      import_python_names {| vi_major := 3; vi_minor := 11 |} = Some names
      ∧ version.to_str (MIN_PYTHON_VERSION names) = "3.6".
Proof.
  split; [lia|]. split; [lia|].
  destruct (C9_constants {| vi_major := 3; vi_minor := 11 |})
    as (_ & _ & _ & _ & _ & _ & _ & _ & names & Himport & _ & _ & _ & Hstr);
    [simpl; lia..|].
  exists names. split; [exact Himport|exact Hstr].
Defined.

(** * Further properties *)

Lemma string_app_length (s t : string) :
  String.length (s +:+ t) = (String.length s + String.length t)%nat.
Proof.
  induction s as [|c s IH]; [done|]. rewrite string_app_cons. simpl. by rewrite IH.
Qed.

Section Releases.
Import Re version.
Local Open Scope regex_scope.

Lemma concat_dotted (d : string) (ds : list string) :
  Py.concat "." (d :: ds) = d +:+ dotted_tail ds.
Proof.
  unfold Py.concat. revert d. induction ds as [|d' ds IH]; intros d.
  - simpl. by rewrite string_app_nil_r.
  - change (String.concat "." (d :: d' :: ds))
      with (d +:+ "." +:+ String.concat "." (d' :: ds)).
    by rewrite IH.
Qed.

Lemma dotted_tail_stops (ds : list string) : stops Py.isdigit (dotted_tail ds).
Proof. by destruct ds. Qed.

Lemma head_digits_number (d rest : string) (g : gmap string string) :
  number d → stops Py.isdigit rest →
  head (rmatch digits (d +:+ rest) g) = Some (rest, g).
Proof. intros [Hne Hd] Hrest. destruct d; [done|]. by apply head_digits. Qed.

(** The repetition after the first number reads every further number. *)
Lemma head_dotted_tail (ds : list string) (g : gmap string string) :
  Forall number ds →
  head (rmatch (Star (Lit "." >> digits)) (dotted_tail ds) g) = Some ("", g).
Proof.
  induction 1 as [|d ds Hd Hds IH]; [reflexivity|].
  cbn [dotted_tail]. rewrite rmatch_star. apply head_app.
  eapply head_flat_map.
  - rewrite rmatch_seq. change (Lit ".") with (Chr ".").
    rewrite rmatch_chr_self. cbn [flat_map fst snd]. rewrite app_nil_r.
    apply head_digits_number; [done|apply dotted_tail_stops].
  - cbn [fst snd].
    destruct (Nat.ltb_spec (String.length (dotted_tail ds))
                (String.length (String "." (d +:+ dotted_tail ds)))) as [_|Hge];
      [exact IH|].
    simpl in Hge. rewrite string_app_length in Hge. lia.
Qed.

Lemma head_release_numbers (d : string) (ds : list string) (g : gmap string string) :
  number d → Forall number ds →
  head (rmatch release_segment (d +:+ dotted_tail ds) g)
  = Some ("", <["release" := d +:+ dotted_tail ds]> g).
Proof.
  intros Hd Hds. unfold release_segment.
  change (rmatch (Grp "release" (digits >> Star (Lit "." >> digits))) ?s g)
    with (map (fun st : state => (st.1, <["release" := consumed s st.1]> st.2))
              (rmatch (digits >> Star (Lit "." >> digits)) s g)).
  erewrite head_map; cycle 1.
  { rewrite rmatch_seq. eapply head_flat_map.
    - apply head_digits_number; [done|apply dotted_tail_stops].
    - by apply head_dotted_tail. }
  cbn [fst snd]. unfold consumed. cbn [String.length].
  by rewrite Nat.sub_0_r, substring_all.
Qed.

(** No epoch is read from digits that no ["!"] follows. *)
Lemma rmatch_epoch_stops (d rest : string) (g : gmap string string) :
  digit_string d → stops Py.isdigit rest →
  stops (fun x => Ascii.eqb (Py.lower_char x) (Py.lower_char "!")) rest →
  rmatch epoch_segment (d +:+ rest) g = [].
Proof.
  intros Hd Hrest Hbang. unfold epoch_segment. cbn [rmatch].
  apply flat_map_nil. intros st Hst.
  apply list_elem_of_fmap in Hst as (st' & -> & Hst').
  apply elem_of_digits in Hst' as (_ & d1 & d2 & -> & Hst'); [|done..].
  cbn [fst snd]. rewrite Hst'. unfold digit_string in Hd.
  rewrite list_ascii_app in Hd. apply Forall_app in Hd as [_ Hd2].
  destruct d2 as [|c d2].
  - rewrite string_app_nil_l. change (Lit "!") with (Chr "!"). unfold Chr.
    by apply rmatch_cls_stops.
  - apply Forall_cons in Hd2 as [Hc _]. rewrite string_app_cons.
    cbn [Lit Chr rmatch].
    destruct (Ascii.eqb_spec (Py.lower_char c) (Py.lower_char "!")) as [Heq|]; [|done].
    exfalso. clear -Hc Heq.
    destruct c as [[] [] [] [] [] [] [] []]; vm_compute in Hc, Heq; discriminate.
Qed.

Lemma dotted_tail_stops_bang (ds : list string) :
  stops (fun x => Ascii.eqb (Py.lower_char x) (Py.lower_char "!")) (dotted_tail ds).
Proof. by destruct ds. Qed.

Lemma search_release_numbers (d : string) (ds : list string) :
  number d → Forall number ds →
  search _regex (d +:+ dotted_tail ds) = Some (<["release" := d +:+ dotted_tail ds]> ∅).
Proof.
  intros Hd Hds.
  assert (head (rmatch _regex (d +:+ dotted_tail ds) ∅)
          = Some ("", <["release" := d +:+ dotted_tail ds]> ∅)) as Hhead.
  { unfold _regex. rewrite rmatch_seq.
    destruct d as [|c1 d1]; [by destruct Hd|].
    pose proof Hd as [_ [Hc1 _]%Forall_cons].
    rewrite string_app_cons, rmatch_star_cls_stops by by apply digit_stops_space.
    cbn [flat_map fst snd]. rewrite app_nil_r.
    rewrite rmatch_seq. eapply head_flat_map.
    - unfold VERSION_PATTERN.
      rewrite rmatch_seq, rmatch_opt, digit_not_v by done.
      cbn [app flat_map fst snd]. rewrite app_nil_r.
      rewrite rmatch_seq, rmatch_opt, <- string_app_cons.
      rewrite rmatch_epoch_stops
        by first [apply Hd | apply dotted_tail_stops | apply dotted_tail_stops_bang].
      cbn [app flat_map fst snd]. rewrite app_nil_r.
      rewrite rmatch_seq. eapply head_flat_map.
      + by apply head_release_numbers.
      + cbn [fst snd]. by rewrite rmatch_suffix_empty.
    - cbn [fst snd]. by rewrite rmatch_end_empty. }
  unfold search. destruct (rmatch _regex _ ∅); simpl in Hhead; [done|].
  by injection Hhead as ->.
Qed.

Lemma number_no_dot (d : string) : number d → "."%char ∉ list_ascii_of_string d.
Proof. intros [_ Hd]. by apply digit_string_no_dot. Qed.

Lemma split_dotted (d : string) (ds : list string) :
  number d → Forall number ds → Py.split "." (d +:+ dotted_tail ds) = d :: ds.
Proof.
  intros Hd Hds. revert d Hd. induction Hds as [|d' ds Hd' Hds IH]; intros d Hd.
  - cbn [dotted_tail]. rewrite string_app_nil_r. by apply split_no_sep, number_no_dot.
  - cbn [dotted_tail]. rewrite split_app, IH by done.
    by rewrite split_no_sep by by apply number_no_dot.
Qed.

(** [Version("n1.n2. ... .nk")] for numbers written in digits. *)
Lemma Version_of_numbers (d : string) (ds : list string) :
  number d → Forall number ds →
  Version_of (Py.concat "." (d :: ds))
  = Some (mkVersion 0 (map Py.int (d :: ds)) None None None None).
Proof.
  intros Hd Hds. rewrite concat_dotted. unfold Version_of.
  rewrite search_release_numbers by done.
  rewrite lookup_insert_eq.
  rewrite !lookup_insert_ne, !lookup_empty by done.
  cbn [default truthy _parse_letter_version _parse_local_version or_group].
  unfold id. by rewrite split_dotted.
Qed.

Lemma number_str (n : Z) : 0 <= n → number (Py.str n).
Proof. intros Hn. by apply str_digit_string. Qed.

(** [Version] of the release [ns] printed with dots: the release is read
    back. *)
Lemma Version_of_release_list (n : Z) (ns : list Z) :
  Forall (fun k => 0 <= k) (n :: ns) →
  Version_of (Py.concat "." (map Py.str (n :: ns)))
  = Some (mkVersion 0 (n :: ns) None None None None).
Proof.
  intros Hall. cbn [map]. rewrite Version_of_numbers.
  - do 2 f_equal. change (map Py.int (Py.str n :: map Py.str ns))
      with (map Py.int (map Py.str (n :: ns))).
    rewrite map_map. rewrite <- (map_id (n :: ns)) at 2.
    apply map_ext_Forall. eapply Forall_impl; [exact Hall|].
    intros k Hk. by apply int_str.
  - apply number_str. by apply Forall_cons in Hall as [? _].
  - apply Forall_cons in Hall as [_ Hns]. rewrite Forall_map.
    eapply Forall_impl; [exact Hns|]. intros k Hk. by apply number_str.
Qed.
End Releases.

(** ** Stripping *)

Lemma lstrip_blank (pad s : string) : blank pad → Py.lstrip (pad +:+ s) = Py.lstrip s.
Proof.
  unfold blank. induction pad as [|c pad IH]; [done|].
  cbn [list_ascii_of_string]. intros [Hc Hpad]%Forall_cons. rewrite string_app_cons.
  cbn [Py.lstrip]. rewrite Hc. by apply IH.
Qed.

Lemma lstrip_stops (s : string) : stops Py.isspace s → Py.lstrip s = s.
Proof. destruct s as [|c s]; simpl; [done|]. by intros ->. Qed.

Lemma rstrip_blank (pad : string) : blank pad → Py.rstrip pad = "".
Proof.
  unfold blank. induction pad as [|c pad IH]; simpl; [done|].
  intros [Hc Hpad]%Forall_cons. by rewrite IH, Hc.
Qed.

Lemma rstrip_solid (v pad : string) : solid v → blank pad → Py.rstrip (v +:+ pad) = v.
Proof.
  unfold solid. intros Hv Hpad. induction v as [|c v IH]; simpl in Hv.
  - rewrite string_app_nil_l. by apply rstrip_blank.
  - apply Forall_cons in Hv as [Hc Hv]. rewrite string_app_cons.
    cbn [Py.rstrip]. rewrite (IH Hv), Hc. by destruct v.
Qed.

(** Stripping removes the whitespace around a text that has none inside. *)
Lemma strip_padded (pad1 v pad2 : string) :
  blank pad1 → solid v → blank pad2 → Py.strip (pad1 +:+ v +:+ pad2) = v.
Proof.
  intros Hpad1 Hv Hpad2. unfold Py.strip. rewrite lstrip_blank by done.
  destruct v as [|c v].
  - rewrite string_app_nil_l.
    replace (Py.lstrip pad2) with "".
    + reflexivity.
    + clear -Hpad2. unfold blank in Hpad2.
      induction pad2 as [|c pad IH]; simpl in *; [done|].
      apply Forall_cons in Hpad2 as [-> Hpad]. by apply IH.
  - rewrite lstrip_stops.
    + by apply rstrip_solid.
    + rewrite string_app_cons. simpl. by apply Forall_cons in Hv as [? _].
Qed.

(** ** The text of a release *)

Lemma digit_solid_no_eq (c : ascii) :
  Py.isdigit c = true ∨ c = "."%char → Py.isspace c = false ∧ c ≠ "="%char.
Proof.
  intros [Hc| ->]; [|by split].
  destruct c as [[] [] [] [] [] [] [] []]; vm_compute in Hc |- *;
    first [discriminate | by split].
Qed.

Lemma dotted_chars (d : string) (ds : list string) :
  number d → Forall number ds →
  Forall (fun c => Py.isdigit c = true ∨ c = "."%char)
         (list_ascii_of_string (d +:+ dotted_tail ds)).
Proof.
  intros Hd Hds. revert d Hd. induction Hds as [|d' ds Hd' _ IH]; intros d [_ Hd].
  - simpl. rewrite string_app_nil_r. eapply Forall_impl; [exact Hd|]. by left.
  - cbn [dotted_tail]. rewrite list_ascii_app. apply Forall_app. split.
    + eapply Forall_impl; [exact Hd|]. by left.
    + simpl. constructor; [by right|]. by apply IH.
Qed.

Lemma blank_no_eq (pad : string) : blank pad → "="%char ∉ list_ascii_of_string pad.
Proof.
  unfold blank. rewrite Forall_forall. intros Hpad Hin. by specialize (Hpad _ Hin).
Qed.

(** The value of a revision line written [key = n1.n2. ... .nk], with any
    whitespace around the numbers. *)
Lemma revision_value_numbers (key_rest pad1 pad2 d : string) (ds : list string) :
  blank pad1 → blank pad2 → number d → Forall number ds →
  Py.strip (Py.last_item (Py.split "="
     ("Pkg.Revision" +:+ key_rest +:+ "=" +:+ pad1 +:+ Py.concat "." (d :: ds) +:+ pad2)))
  = Py.concat "." (d :: ds).
Proof.
  intros Hpad1 Hpad2 Hd Hds.
  rewrite <- (string_app_assoc "Pkg.Revision" key_rest).
  rewrite last_item_split.
  - rewrite concat_dotted. apply strip_padded; [done| |done].
    eapply Forall_impl; [by apply dotted_chars|].
    intros c Hc. by apply digit_solid_no_eq.
  - rewrite !list_ascii_app, !not_elem_of_app.
    split; [by apply blank_no_eq|]. split; [|by apply blank_no_eq].
    rewrite concat_dotted.
    pose proof (dotted_chars d ds Hd Hds) as Hchars.
    rewrite Forall_forall in Hchars. intros Hin.
    by destruct (digit_solid_no_eq _ (Hchars _ Hin)).
Qed.

(** ** The check on a version that was read *)

Lemma check_ndk_version_found
    (fs : files) (ndk_dir : string) (v : version.Version) (log : list log_record) :
  read_ndk_version fs ndk_dir log = (Return (Some v), log) →
  check_ndk_version fs ndk_dir log =
    (if decide (version.major v < 27) then
       (Raise (BuildInterruptingException
                 (NDK_LOWER_THAN_SUPPORTED_MESSAGE 27 NDK_DOWNLOAD_URL)
                 (Some ("Please download a supported NDK from " +:+ NDK_DOWNLOAD_URL
                        +:+ "." +:+ String "010" ""
                        +:+ "*** The currently recommended NDK version is "
                        +:+ RECOMMENDED_NDK_VERSION +:+ " ***"))),
        log ++ [Log INFO ("Found NDK version " +:+ string_version v)])
     else if decide (27 < version.major v) then
       (Return tt,
        log ++ [Log INFO ("Found NDK version " +:+ string_version v);
                Log WARNING (RECOMMENDED_NDK_VERSION_MESSAGE RECOMMENDED_NDK_VERSION);
                Log WARNING NEW_NDK_MESSAGE])
     else (Return tt, log ++ [Log INFO ("Found NDK version " +:+ string_version v)])).
Proof.
  intros Hread. unfold check_ndk_version, mbind, M_bind. rewrite Hread.
  fold (@mbind M _ unit unit). unfold MIN_NDK_VERSION, MAX_NDK_VERSION.
  unfold CURRENT_NDK_VERSION_MESSAGE.
  destruct (Z.ltb_spec (version.major v) 27), (Z.ltb_spec 27 (version.major v));
    repeat case_decide; try lia; by run_M.
Qed.

(** X3: a revision line [Pkg.Revision = n1.n2. ... .nk] of non-negative
    numbers, with any whitespace around the value and anything between the
    key and the ["="], is read as the release [(n1, ..., nk)]; the NDK check
    then logs the label of [n1] and [n2] and is fatal exactly when
    [n1 < 27], whatever the other numbers are. *)
Theorem ndk_revision_numbers
    (fs : files) (ndk_dir ndk_data : string) (log : list log_record)
    (before after : list string) (key_rest pad1 pad2 : string)
    (major : Z) (rest : list Z)
    (Hfile : fs !! Py.join ndk_dir "source.properties" = Some ndk_data)
    (Hlines : Py.splitlines ndk_data
              = before
                ++ ("Pkg.Revision" +:+ key_rest +:+ "=" +:+ pad1
                    +:+ Py.concat "." (map Py.str (major :: rest)) +:+ pad2)
                   :: after)
    (Hbefore : Forall (fun l => Py.startswith l "Pkg.Revision" = false) before)
    (Hpad1 : blank pad1) (Hpad2 : blank pad2)
    (Hnumbers : Forall (fun k => 0 <= k) (major :: rest)) :
  let v := version.mkVersion 0 (major :: rest) None None None None in
  read_ndk_version fs ndk_dir log = (Return (Some v), log)
  ∧ version.major v = major
  ∧ version.minor v = nth 0 rest 0
  ∧ (is_fatal (check_ndk_version fs ndk_dir log).1 = true ↔ major < 27)
  ∧ (raised (check_ndk_version fs ndk_dir log).1 = true ↔ major < 27)
  ∧ ∃ more,
      (check_ndk_version fs ndk_dir log).2
      = log ++ Log INFO ("Found NDK version " +:+ Py.str major
                         +:+ default "" (minor_to_letter !! nth 0 rest 0)) :: more.
Proof.
  intros v.
  assert (read_ndk_version fs ndk_dir log = (Return (Some v), log)) as Hread.
  { rewrite read_ndk_version_unfold, Hfile, Hlines.
    rewrite revision_line_first; [|done|].
    - unfold revision_of_line. cbn zeta.
      assert (Forall number (map Py.str (major :: rest))) as Hnums.
      { rewrite Forall_map. eapply Forall_impl; [exact Hnumbers|].
        intros k Hk. by apply number_str. }
      cbn [map] in Hnums |- *. apply Forall_cons in Hnums as [Hn Hns].
      rewrite revision_value_numbers by done.
      unfold version.parse.
      change (Py.str major :: map Py.str rest) with (map Py.str (major :: rest)).
      by rewrite Version_of_release_list.
    - apply startswith_iff. by eexists. }
  split; [exact Hread|]. split; [reflexivity|]. split; [by destruct rest|].
  rewrite (check_ndk_version_found _ _ _ _ Hread).
  change (version.major v) with major.
  unfold string_version. change (version.major v) with major.
  replace (version.minor v) with (nth 0 rest 0) by by destruct rest.
  destruct (decide (major < 27)), (decide (27 < major)); cbn [fst snd is_fatal raised];
    (split; [|split]); try (split; (done || lia)); by eexists.
Qed.

(** ** The lines of a text file *)

Lemma splitlines_from_one_line (cur l : string) :
  one_line l →
  Py.splitlines_from cur l = match cur +:+ l with "" => [] | s => [s] end.
Proof.
  unfold one_line. revert cur. induction l as [|c l IH]; intros cur Hl.
  - rewrite string_app_nil_r. by destruct cur.
  - cbn [list_ascii_of_string] in Hl. apply Forall_cons in Hl as [Hc Hl].
    cbn [Py.splitlines_from].
    destruct (Ascii.eqb_spec c "013") as [->|_]; [done|].
    rewrite Hc, (IH _ Hl), string_app_assoc. reflexivity.
Qed.

Lemma splitlines_from_eol (cur l eol rest : string) :
  one_line l → is_eol eol →
  Py.splitlines_from cur (l +:+ eol +:+ rest)
  = (cur +:+ l) :: Py.splitlines_from "" rest.
Proof.
  unfold one_line. intros Hl Heol. revert cur.
  induction l as [|c l IH]; intros cur.
  - rewrite string_app_nil_l, string_app_nil_r. by destruct Heol as [-> | ->].
  - cbn [list_ascii_of_string] in Hl. apply Forall_cons in Hl as [Hc Hl].
    rewrite string_app_cons. cbn [Py.splitlines_from].
    destruct (Ascii.eqb_spec c "013") as [->|_]; [done|].
    rewrite Hc, (IH Hl), string_app_assoc. reflexivity.
Qed.

Lemma splitlines_unlines (eol last : string) (lines : list string) :
  is_eol eol → Forall one_line lines → one_line last →
  Py.splitlines (unlines eol lines +:+ last)
  = lines ++ match last with "" => [] | _ => [last] end.
Proof.
  intros Heol Hlines Hlast. unfold Py.splitlines.
  induction Hlines as [|l lines Hl _ IH].
  - cbn [unlines]. rewrite string_app_nil_l, splitlines_from_one_line by done.
    rewrite string_app_nil_l. by destruct last.
  - cbn [unlines]. rewrite !string_app_assoc, splitlines_from_eol by done.
    rewrite string_app_nil_l. by rewrite IH.
Qed.

(** X4: on a text file, that is lines ended by LF or by CR LF, the last one
    perhaps not ended, [read_ndk_version] is decided by the first of these
    lines that starts with the key: it returns [None] when there is none and
    else reads that line. *)
Theorem read_ndk_version_text_file
    (fs : files) (ndk_dir eol last : string) (lines : list string)
    (log : list log_record)
    (Hfile : fs !! Py.join ndk_dir "source.properties"
             = Some (unlines eol lines +:+ last))
    (Heol : is_eol eol)
    (Hlines : Forall one_line lines)
    (Hlast : one_line last) :
  Py.splitlines (unlines eol lines +:+ last)
  = lines ++ match last with "" => [] | _ => [last] end
  ∧ read_ndk_version fs ndk_dir log =
      match List.find (fun line => Py.startswith line "Pkg.Revision")
                      (lines ++ match last with "" => [] | _ => [last] end) with
      | None => (Return None, log ++ [Log INFO PARSE_ERROR_NDK_MESSAGE])
      | Some line =>
          let value := Py.strip (Py.last_item (Py.split "=" line)) in
          match version.parse value with
          | Some v => (Return (Some v), log)
          | None => (Raise (InvalidVersion value), log)
          end
      end.
Proof.
  split; [by apply splitlines_unlines|].
  rewrite read_ndk_version_unfold, Hfile, splitlines_unlines by done.
  unfold revision_line. destruct (List.find _ _); [|done].
  unfold revision_of_line. cbn zeta. by destruct (version.parse _).
Qed.

(** ** Lines that hold no version *)

Section NoVersion.
Import Re version.
Local Open Scope regex_scope.

(** A text that starts with neither a digit nor "v" is no version. *)
Lemma Version_of_other_start (c : ascii) (s : string) :
  Py.isspace c = false → Py.isdigit c = false →
  Ascii.eqb (Py.lower_char c) (Py.lower_char "v") = false →
  Version_of (String c s) = None.
Proof.
  intros Hspace Hdigit Hv. unfold Version_of, search.
  replace (rmatch _regex (String c s) ∅) with (@nil state); [done|].
  symmetry. unfold _regex.
  rewrite rmatch_seq, rmatch_star_cls_stops by done.
  cbn [flat_map fst snd]. rewrite app_nil_r.
  rewrite rmatch_seq. apply flat_map_nil. intros st Hst. exfalso. revert Hst.
  unfold VERSION_PATTERN.
  rewrite rmatch_seq, rmatch_opt. change (Lit "v") with (Chr "v"). unfold Chr.
  rewrite rmatch_cls_stops by done.
  cbn [app flat_map fst snd]. rewrite app_nil_r.
  assert (rmatch digits (String c s) ∅ = []) as Hdigits.
  { unfold digits, Plus. rewrite rmatch_seq.
    by rewrite rmatch_cls_stops by done. }
  rewrite rmatch_seq, rmatch_opt. unfold epoch_segment at 1.
  rewrite rmatch_seq.
  change (rmatch (Grp "epoch" digits) (String c s) ∅)
    with (map (fun st : state => (st.1, <["epoch" := consumed (String c s) st.1]> st.2))
              (rmatch digits (String c s) ∅)).
  rewrite Hdigits. cbn [map app flat_map fst snd]. rewrite app_nil_r.
  rewrite rmatch_seq. unfold release_segment.
  change (rmatch (Grp "release" (digits >> Star (Lit "." >> digits))) (String c s) ∅)
    with (map (fun st : state => (st.1, <["release" := consumed (String c s) st.1]> st.2))
              (rmatch (digits >> Star (Lit "." >> digits)) (String c s) ∅)).
  rewrite rmatch_seq, Hdigits. cbn [map flat_map]. by intros ?%elem_of_nil.
Qed.
End NoVersion.

Lemma strip_keeps_start (c : ascii) (s : string) :
  Py.isspace c = false → ∃ t, Py.strip (String c s) = String c t.
Proof.
  intros Hc. unfold Py.strip. cbn [Py.lstrip]. rewrite Hc. cbn [Py.rstrip].
  rewrite Hc. destruct (Py.rstrip s); eauto.
Qed.

(** X5: a revision line with no ["="] has the whole line for its value, and
    one with nothing but whitespace after its last ["="] has the empty
    value; neither is a version, so [InvalidVersion] leaves
    [read_ndk_version] and [check_ndk_version], and nothing is logged. *)
Theorem ndk_revision_without_value
    (fs : files) (ndk_dir ndk_data line : string) (log : list log_record)
    (before after : list string)
    (Hfile : fs !! Py.join ndk_dir "source.properties" = Some ndk_data)
    (Hlines : Py.splitlines ndk_data = before ++ line :: after)
    (Hbefore : Forall (fun l => Py.startswith l "Pkg.Revision" = false) before)
    (Hline : Py.startswith line "Pkg.Revision" = true) :
  ("="%char ∉ list_ascii_of_string line →
   read_ndk_version fs ndk_dir log = (Raise (InvalidVersion (Py.strip line)), log)
   ∧ check_ndk_version fs ndk_dir log = (Raise (InvalidVersion (Py.strip line)), log))
  ∧ (∀ key pad : string,
       line = key +:+ "=" +:+ pad → blank pad →
       read_ndk_version fs ndk_dir log = (Raise (InvalidVersion ""), log)
       ∧ check_ndk_version fs ndk_dir log = (Raise (InvalidVersion ""), log)).
Proof.
  assert (revision_line (Py.splitlines ndk_data) = Some line) as Hrev
    by (rewrite Hlines; by apply revision_line_first).
  split.
  - intros Hnoeq.
    assert (Py.last_item (Py.split "=" line) = line) as Hvalue
      by (by rewrite split_no_sep).
    pose proof (check_ndk_version_invalid fs ndk_dir ndk_data line log Hfile Hrev)
      as Hraise.
    rewrite Hvalue in Hraise. apply Hraise. clear Hraise Hrev Hlines Hnoeq Hvalue.
    apply startswith_iff in Hline as [rest ->].
    change ("Pkg.Revision" +:+ rest) with (String "P" ("kg.Revision" +:+ rest)).
    destruct (strip_keeps_start "P" ("kg.Revision" +:+ rest)) as [t ->]; [done|].
    by apply Version_of_other_start.
  - intros key pad -> Hpad.
    assert (Py.strip (Py.last_item (Py.split "=" (key +:+ "=" +:+ pad))) = "") as Hvalue.
    { rewrite last_item_split by by apply blank_no_eq.
      rewrite <- (string_app_nil_r pad).
      change (pad +:+ "") with (pad +:+ "" +:+ "").
      apply (strip_padded pad "" ""); [done|constructor|constructor]. }
    pose proof (check_ndk_version_invalid fs ndk_dir ndk_data _ log Hfile Hrev)
      as Hraise.
    rewrite Hvalue in Hraise. by apply Hraise.
Qed.

(** ** The label of a version *)

Lemma letter_of_minor (minor : Z) :
  default "" (minor_to_letter !! minor)
  = if decide (1 <= minor <= 25) then Py.chr (Py.ord "a" + minor) else "".
Proof.
  case_decide as Hrange.
  - pose proof minor_to_letter_letters as Hall. rewrite Forall_forall in Hall.
    rewrite (Hall minor); [done|]. apply elem_of_seqZ. lia.
  - destruct (decide (minor = 0)) as [->|Hne]; [reflexivity|].
    rewrite minor_to_letter_miss; [done|lia].
Qed.

Lemma letter_stops (minor : Z) :
  stops Py.isdigit (default "" (minor_to_letter !! minor)).
Proof.
  rewrite letter_of_minor. case_decide as Hrange; [|done].
  assert (Forall (fun k => Py.isdigit (ascii_of_N (Z.to_N (Py.ord "a" + k))) = false)
                 (seqZ 1 25)) as Hall
    by (apply (bool_decide_unpack _); vm_compute; reflexivity).
  rewrite Forall_forall in Hall. apply (Hall minor), elem_of_seqZ. lia.
Qed.

Lemma letter_inj (m1 m2 : Z) :
  0 <= m1 <= 25 → 0 <= m2 <= 25 →
  default "" (minor_to_letter !! m1) = default "" (minor_to_letter !! m2) → m1 = m2.
Proof.
  intros H1 H2. rewrite !letter_of_minor. unfold Py.chr.
  change (Py.ord "a") with 97.
  repeat case_decide; try done; try lia.
  intros [= Heq]. apply (f_equal N_of_ascii) in Heq.
  rewrite !N_ascii_embedding in Heq by lia.
  lia.
Qed.

(** Digits followed by something that is no digit: the digits are
    determined. *)
Lemma digits_app_inj (d1 d2 s1 s2 : string) :
  digit_string d1 → digit_string d2 →
  stops Py.isdigit s1 → stops Py.isdigit s2 →
  d1 +:+ s1 = d2 +:+ s2 → d1 = d2 ∧ s1 = s2.
Proof.
  unfold digit_string. intros Hd1 Hd2 Hs1 Hs2. revert d2 Hd2.
  induction d1 as [|c1 d1 IH]; intros [|c2 d2] Hd2 Heq;
    cbn [list_ascii_of_string] in *;
    rewrite ?string_app_cons, ?string_app_nil_l in Heq.
  - done.
  - apply Forall_cons in Hd2 as [Hc2 _]. subst s1. simpl in Hs1. congruence.
  - apply Forall_cons in Hd1 as [Hc1 _]. subst s2. simpl in Hs2. congruence.
  - apply Forall_cons in Hd1 as [_ Hd1]. apply Forall_cons in Hd2 as [_ Hd2].
    injection Heq as -> Heq. destruct (IH Hd1 d2 Hd2 Heq) as [-> ->]. done.
Qed.

Lemma str_inj (n1 n2 : Z) : 0 <= n1 → 0 <= n2 → Py.str n1 = Py.str n2 → n1 = n2.
Proof.
  intros H1 H2 Heq. rewrite <- (int_str n1), <- (int_str n2) by done. by rewrite Heq.
Qed.

(** X6: the label logged for a version, the major number followed by the
    letter of the minor number, tells the two numbers: versions with minor
    numbers up to 25 that have the same label have the same major and minor
    numbers. *)
Theorem string_version_inj (v1 v2 : version.Version)
    (Hmajor1 : 0 <= version.major v1) (Hmajor2 : 0 <= version.major v2)
    (Hminor1 : 0 <= version.minor v1 <= 25) (Hminor2 : 0 <= version.minor v2 <= 25)
    (Hlabel : string_version v1 = string_version v2) :
  version.major v1 = version.major v2 ∧ version.minor v1 = version.minor v2.
Proof.
  unfold string_version in Hlabel.
  destruct (digits_app_inj _ _ _ _
              (proj2 (str_digit_string _ Hmajor1)) (proj2 (str_digit_string _ Hmajor2))
              (letter_stops _) (letter_stops _) Hlabel) as [Hmajor Hletter].
  split; [exact (str_inj _ _ Hmajor1 Hmajor2 Hmajor)
         |exact (letter_inj _ _ Hminor1 Hminor2 Hletter)].
Qed.

Lemma string_version_inj_witness :
  string_version (version.mkVersion 0 [27; 2; 12479018] None None None None)
  = string_version (version.mkVersion 0 [27; 2] None None None None)
  ∧ version.minor (version.mkVersion 0 [27; 2; 12479018] None None None None)
    = version.minor (version.mkVersion 0 [27; 2] None None None None).
Proof.
  assert (string_version (version.mkVersion 0 [27; 2; 12479018] None None None None)
          = string_version (version.mkVersion 0 [27; 2] None None None None)) as Hlabel
    by reflexivity.
  split; [exact Hlabel|].
  apply (string_version_inj
           (version.mkVersion 0 [27; 2; 12479018] None None None None)
           (version.mkVersion 0 [27; 2] None None None None));
    [vm_compute; intuition discriminate..|exact Hlabel].
Defined.

(** The version whose label is the recommended one. *)
Lemma recommended_label (v : version.Version) :
  string_version v = RECOMMENDED_NDK_VERSION →
  version.major v = 28 ∧ version.minor v = 2.
Proof.
  unfold string_version, RECOMMENDED_NDK_VERSION. intros Hlabel.
  destruct (Z.le_gt_cases 0 (version.major v)) as [Hmajor|Hneg].
  - change "28c" with ("28" +:+ "c") in Hlabel.
    assert (digit_string "28") as H28 by (repeat constructor).
    assert (stops Py.isdigit "c") as Hc by reflexivity.
    destruct (digits_app_inj _ _ _ _
                (proj2 (str_digit_string _ Hmajor)) H28 (letter_stops _) Hc Hlabel)
      as [Hstr Hletter].
    clear Hlabel. split.
    + apply (f_equal Py.int) in Hstr. by rewrite int_str in Hstr.
    + rewrite letter_of_minor in Hletter. case_decide as Hrange; [|done].
      unfold Py.chr in Hletter. injection Hletter as Heq.
      apply (f_equal N_of_ascii) in Heq.
      rewrite N_ascii_embedding in Heq by (change (Py.ord "a") with 97; lia).
      change (Py.ord "a") with 97 in Heq. change (N_of_ascii "c") with 99%N in Heq. lia.
  - exfalso. destruct (version.major v) as [|p|p]; [lia..|]. discriminate Hlabel.
Qed.

(** X7: an NDK with the label the module recommends, "28c", is newer than
    the newest major version the check accepts in silence: the check
    returns, after the two warnings about newer NDKs. *)
Theorem recommended_ndk_is_warned
    (fs : files) (ndk_dir : string) (v : version.Version) (log : list log_record)
    (Hread : read_ndk_version fs ndk_dir log = (Return (Some v), log))
    (Hlabel : string_version v = RECOMMENDED_NDK_VERSION) :
  version.major v = 28
  ∧ MAX_NDK_VERSION < version.major v
  ∧ check_ndk_version fs ndk_dir log
    = (Return tt,
       log ++ [Log INFO "Found NDK version 28c";
               Log WARNING
                 "Maximum recommended NDK version is 28c, but newer versions may work.";
               Log WARNING "Newer NDKs may not be fully supported by p4a."]).
Proof.
  destruct (recommended_label v Hlabel) as [Hmajor Hminor].
  split; [done|]. split; [rewrite Hmajor; done|].
  rewrite (check_ndk_version_found _ _ _ _ Hread), Hlabel, Hmajor.
  reflexivity.
Qed.

Lemma recommended_ndk_is_warned_witness :
  read_ndk_version {["ndk/source.properties" := "Pkg.Revision = 28.2.13676358"]} "ndk" []
  = (Return (Some (version.mkVersion 0 [28; 2; 13676358] None None None None)), [])
  ∧ length (warnings
      (check_ndk_version {["ndk/source.properties" := "Pkg.Revision = 28.2.13676358"]}
                         "ndk" []).2) = 2%nat.
Proof.
  assert (read_ndk_version {["ndk/source.properties" := "Pkg.Revision = 28.2.13676358"]}
                           "ndk" []
          = (Return (Some (version.mkVersion 0 [28; 2; 13676358] None None None None)), []))
    as Hread by (vm_compute; reflexivity).
  split; [exact Hread|].
  destruct (recommended_ndk_is_warned _ _ _ _ Hread) as (_ & _ & ->); reflexivity.
Defined.

(** ** Every call of the NDK check *)

(** The three ways a call of [check_ndk_version] goes. *)
Lemma check_ndk_version_cases (fs : files) (ndk_dir : string) (log : list log_record) :
  (revision_unknown fs ndk_dir
   ∧ ∃ notice,
       read_ndk_version fs ndk_dir log = (Return None, log ++ [Log INFO notice])
       ∧ check_ndk_version fs ndk_dir log
         = (Return tt,
            log ++ [Log INFO notice;
                    Log WARNING (READ_ERROR_NDK_MESSAGE ndk_dir);
                    Log WARNING (ENSURE_RIGHT_NDK_MESSAGE 27 "28c" NDK_DOWNLOAD_URL)]))
  ∨ (¬ revision_unknown fs ndk_dir
     ∧ ∃ value,
         read_ndk_version fs ndk_dir log = (Raise (InvalidVersion value), log)
         ∧ check_ndk_version fs ndk_dir log = (Raise (InvalidVersion value), log))
  ∨ (¬ revision_unknown fs ndk_dir
     ∧ ∃ v, read_ndk_version fs ndk_dir log = (Return (Some v), log)).
Proof.
  unfold revision_unknown.
  destruct (fs !! Py.join ndk_dir "source.properties") as [ndk_data|] eqn:Hfile.
  - destruct (revision_line (Py.splitlines ndk_data)) as [line|] eqn:Hline.
    + assert (¬ Forall (fun l => Py.startswith l "Pkg.Revision" = false)
                       (Py.splitlines ndk_data)) as Hknown.
      { intros Hall%revision_line_none. congruence. }
      destruct (version.parse (Py.strip (Py.last_item (Py.split "=" line))))
        as [v|] eqn:Hparse.
      * right. right. split; [done|]. exists v.
        rewrite read_ndk_version_unfold, Hfile, Hline. unfold revision_of_line.
        cbn zeta. by rewrite Hparse.
      * right. left. split; [done|]. eexists.
        by apply (check_ndk_version_invalid _ _ ndk_data line).
    + left. split; [by apply revision_line_none|].
      apply check_ndk_version_unknown. by rewrite Hfile.
  - left. split; [done|]. apply check_ndk_version_unknown. by rewrite Hfile.
Qed.

(** X1: the version is unknown, that is the properties file cannot be
    opened or has no line starting with the key, exactly when
    [read_ndk_version] returns [None], and exactly when [check_ndk_version]
    returns after one notice and the two warnings that name the directory
    and give the guidance. *)
Theorem ndk_version_unknown_iff (fs : files) (ndk_dir : string) :
  (revision_unknown fs ndk_dir
   ↔ ∃ notice, run (read_ndk_version fs ndk_dir) = (Return None, [Log INFO notice]))
  ∧ (revision_unknown fs ndk_dir
     ↔ ∃ notice,
         run (check_ndk_version fs ndk_dir)
         = (Return tt,
            [Log INFO notice;
             Log WARNING (READ_ERROR_NDK_MESSAGE ndk_dir);
             Log WARNING (ENSURE_RIGHT_NDK_MESSAGE 27 "28c" NDK_DOWNLOAD_URL)]))
  ∧ (revision_unknown fs ndk_dir
     ↔ In (READ_ERROR_NDK_MESSAGE ndk_dir) (warnings (run (check_ndk_version fs ndk_dir)).2)).
Proof.
  unfold run.
  destruct (check_ndk_version_cases fs ndk_dir [])
    as [(Hunknown & notice & Hread & Hcheck)
       |[(Hknown & value & Hread & Hcheck)|(Hknown & v & Hread)]].
  - rewrite Hread, Hcheck. cbn [app].
    split; [|split]; (split; [intros _|done]); eauto.
    cbn. by left.
  - rewrite Hread, Hcheck.
    split; [|split]; (split; [done|]).
    + by intros [? [=]].
    + by intros [? [=]].
    + by intros [].
  - rewrite Hread, (check_ndk_version_found _ _ _ _ Hread).
    split; [|split]; (split; [done|]).
    + by intros [? [=]].
    + intros [notice Heq]. repeat case_decide; cbn [app] in Heq; discriminate Heq.
    + repeat case_decide; cbn; intros Hin; try done.
      destruct Hin as [Heq|[Heq|[]]]; discriminate Heq.
Qed.

(** X2: a call that raises has logged no warning, in every check; the
    warnings of the NDK version check and of the target API check come in
    pairs; reading the version never warns and never raises the exception
    of fatal conditions; the interpreter check logs nothing. *)
Theorem raising_excludes_warnings
    (fs : files) (ndk_dir : string) (api : Z) (arch : string)
    (ndk_api android_api : Z) (sys_version_info : version_info) (names : python_names) :
  (raised (run (check_ndk_version fs ndk_dir)).1 = true →
   warnings (run (check_ndk_version fs ndk_dir)).2 = [])
  ∧ (raised (run (check_target_api api arch)).1 = true →
     warnings (run (check_target_api api arch)).2 = [])
  ∧ (raised (run (check_ndk_api ndk_api android_api)).1 = true →
     warnings (run (check_ndk_api ndk_api android_api)).2 = [])
  ∧ (length (warnings (run (check_ndk_version fs ndk_dir)).2) = 0%nat
     ∨ length (warnings (run (check_ndk_version fs ndk_dir)).2) = 2%nat)
  ∧ (length (warnings (run (check_target_api api arch)).2) = 0%nat
     ∨ length (warnings (run (check_target_api api arch)).2) = 2%nat)
  ∧ warnings (run (read_ndk_version fs ndk_dir)).2 = []
  ∧ is_fatal (run (read_ndk_version fs ndk_dir)).1 = false
  ∧ (run (check_python_version sys_version_info names)).2 = [].
Proof.
  split; [|split; [|split; [|split; [|split; [|split; [|split]]]]]].
  - unfold run. destruct (check_ndk_version_cases fs ndk_dir [])
      as [(_ & notice & _ & ->)|[(_ & value & _ & ->)|(_ & v & Hread)]]; [done..|].
    rewrite (check_ndk_version_found _ _ _ _ Hread). by repeat case_decide.
  - unfold run, check_target_api.
    destruct (_ && _); [done|]. by destruct (api <? MIN_TARGET_API).
  - unfold run, check_ndk_api.
    destruct (android_api <? ndk_api); [done|]. by destruct (ndk_api <? MIN_NDK_API).
  - unfold run. destruct (check_ndk_version_cases fs ndk_dir [])
      as [(_ & notice & _ & ->)|[(_ & value & _ & ->)|(_ & v & Hread)]]; [by right|by left|].
    rewrite (check_ndk_version_found _ _ _ _ Hread).
    repeat case_decide; [by left|by right|by left].
  - unfold run, check_target_api.
    destruct (_ && _); [by left|]. destruct (api <? MIN_TARGET_API); [by right|by left].
  - unfold run. destruct (check_ndk_version_cases fs ndk_dir [])
      as [(_ & notice & -> & _)|[(_ & value & -> & _)|(_ & v & ->)]]; done.
  - unfold run. destruct (check_ndk_version_cases fs ndk_dir [])
      as [(_ & notice & -> & _)|[(_ & value & -> & _)|(_ & v & ->)]]; done.
  - unfold run, check_python_version.
    destruct (_ =? 2); [done|]. by destruct (version.lt _ _).
Qed.

(** ** The recommendations printed *)

(** X8: [print_recommendations] prints six lines and nothing else, and the
    numbers it prints are the ones the checks go by: 27 is the major version
    below which the NDK check is fatal, 30 the target API from which the
    target check is silent, 21 the NDK API from which the NDK API check is
    silent, and the recommended levels 34 and 24 pass both API checks in
    silence. *)
Theorem print_recommendations_thresholds (stdout : list string) :
  print_recommendations stdout
  = stdout ++ ["Min supported NDK version: 27";
               "Recommended NDK version: 28c";
               "Min target API: 30";
               "Recommended target API: 34";
               "Min NDK API: 21";
               "Recommended NDK API: 24"]
  ∧ (∀ (fs : files) (ndk_dir : string) (v : version.Version) (log : list log_record),
       read_ndk_version fs ndk_dir log = (Return (Some v), log) →
       (is_fatal (check_ndk_version fs ndk_dir log).1 = true ↔ version.major v < 27))
  ∧ (∀ (api : Z) (arch : string),
       arch ≠ "armeabi" →
       (run (check_target_api api arch) = (Return tt, []) ↔ 30 <= api))
  ∧ (∀ ndk_api android_api : Z,
       ndk_api <= android_api →
       (run (check_ndk_api ndk_api android_api) = (Return tt, []) ↔ 21 <= ndk_api))
  ∧ (∀ arch : string,
       arch ≠ "armeabi" → run (check_target_api 34 arch) = (Return tt, []))
  ∧ run (check_ndk_api 24 34) = (Return tt, []).
Proof.
  assert (∀ (api : Z) (arch : string),
            arch ≠ "armeabi" →
            (run (check_target_api api arch) = (Return tt, []) ↔ 30 <= api)) as Htarget.
  { intros api arch Harch. unfold run, check_target_api.
    apply String.eqb_neq in Harch. rewrite Harch, andb_false_r.
    unfold MIN_TARGET_API. destruct (Z.ltb_spec api 30); run_M; split; (done || lia). }
  split; [|split; [|split; [|split; [|split]]]].
  - unfold print_recommendations, print. cbn zeta. by rewrite <- !app_assoc.
  - intros fs ndk_dir v log Hread. rewrite (check_ndk_version_found _ _ _ _ Hread).
    repeat case_decide; cbn [fst is_fatal]; split; (done || lia).
  - exact Htarget.
  - intros ndk_api android_api Hle. unfold run, check_ndk_api, MIN_NDK_API.
    destruct (Z.ltb_spec android_api ndk_api); [lia|].
    destruct (Z.ltb_spec ndk_api 21); run_M; split; (done || lia).
  - intros arch Harch. by apply Htarget.
  - reflexivity.
Qed.

(** ** The directory of the NDK *)

Lemma get_app_length (a : string) (c : ascii) (s : string) :
  String.get (String.length a) (a +:+ String c s) = Some c.
Proof. induction a as [|d a IH]; [done|]. rewrite string_app_cons. exact IH. Qed.

Lemma endswith_slash_app (a : string) : Py.endswith_slash (a +:+ "/") = true.
Proof.
  unfold Py.endswith_slash.
  rewrite string_app_length. cbn [String.length].
  replace (String.length a + 1 - 1)%nat with (String.length a) by lia.
  by rewrite get_app_length.
Qed.

(** X9: the directory of the NDK may be given with or without an ending
    slash: the same file is opened, [read_ndk_version] does the same, and
    [check_ndk_version] has the same outcome. *)
Theorem ndk_dir_trailing_slash
    (fs : files) (ndk_dir : string) (log : list log_record)
    (Hdir : ndk_dir ≠ "")
    (Hslash : Py.endswith_slash ndk_dir = false) :
  Py.join ndk_dir "source.properties" = ndk_dir +:+ "/source.properties"
  ∧ Py.join (ndk_dir +:+ "/") "source.properties" = ndk_dir +:+ "/source.properties"
  ∧ read_ndk_version fs (ndk_dir +:+ "/") log = read_ndk_version fs ndk_dir log
  ∧ (check_ndk_version fs (ndk_dir +:+ "/") log).1 = (check_ndk_version fs ndk_dir log).1.
Proof.
  assert (Py.join ndk_dir "source.properties" = ndk_dir +:+ "/source.properties") as Hjoin.
  { unfold Py.join. rewrite Hslash. by destruct ndk_dir. }
  assert (Py.join (ndk_dir +:+ "/") "source.properties"
          = ndk_dir +:+ "/source.properties") as Hjoin'.
  { unfold Py.join. rewrite endswith_slash_app, string_app_assoc.
    by destruct ndk_dir. }
  assert (read_ndk_version fs (ndk_dir +:+ "/") log = read_ndk_version fs ndk_dir log)
    as Hread by (unfold read_ndk_version; by rewrite Hjoin, Hjoin').
  split; [done|]. split; [done|]. split; [done|].
  unfold check_ndk_version, mbind, M_bind. rewrite Hread.
  destruct (read_ndk_version fs ndk_dir log) as [[[v|]|e] log']; [reflexivity| |reflexivity].
  by run_M.
Qed.

Lemma ndk_dir_trailing_slash_witness :
  "ndk" ≠ "" ∧ Py.endswith_slash "ndk" = false
  ∧ read_ndk_version {["ndk/source.properties" := "Pkg.Revision = 27.2.12479018"]}
                     ("ndk" +:+ "/") []
    = read_ndk_version {["ndk/source.properties" := "Pkg.Revision = 27.2.12479018"]}
                       "ndk" [].
Proof.
  split; [done|]. split; [reflexivity|].
  apply (ndk_dir_trailing_slash _ "ndk" []); [done|reflexivity].
Defined.

(** ** The two API checks in a row *)

(** X10: the target API check followed by the NDK API check, on the same
    target API: the two pass in silence exactly when the architecture is not
    armeabi and [21 <= ndk_api <= android_api] and [30 <= android_api]; one
    of them raises exactly when the architecture is armeabi from API 21 on or
    the NDK API is above the target API; for armeabi no pair of levels passes
    in silence. *)
Theorem api_checks_in_a_row (android_api ndk_api : Z) (arch : string) :
  let both := check_target_api android_api arch
              ≫= (fun _ => check_ndk_api ndk_api android_api) in
  (run both = (Return tt, [])
   ↔ arch ≠ "armeabi" ∧ 30 <= android_api ∧ 21 <= ndk_api ∧ ndk_api <= android_api)
  ∧ (raised (run both).1 = true
     ↔ (arch = "armeabi" ∧ 21 <= android_api) ∨ android_api < ndk_api)
  ∧ (arch = "armeabi" → run both ≠ (Return tt, [])).
Proof.
  intros both.
  assert (Harch : String.eqb arch "armeabi" = bool_decide (arch = "armeabi")).
  { case_bool_decide as E; [by apply String.eqb_eq | by apply String.eqb_neq]. }
  subst both. unfold check_target_api, check_ndk_api,
    ARMEABI_MAX_TARGET_API, MIN_TARGET_API, MIN_NDK_API.
  rewrite Harch. clear Harch.
  destruct (Z.leb_spec 21 android_api), (Z.ltb_spec android_api 30),
    (Z.ltb_spec android_api ndk_api), (Z.ltb_spec ndk_api 21);
    case_bool_decide; run_M;
    intuition (first [lia | discriminate | congruence]).
Qed.

(** ** The theorems with hypotheses, on files *)

Lemma ndk_revision_numbers_witness :
  Py.splitlines ("Pkg.Desc = Android NDK" +:+ String "010" "Pkg.Revision = 26.3.11579264")
  = ["Pkg.Desc = Android NDK"]
    ++ ("Pkg.Revision" +:+ " " +:+ "=" +:+ " "
        +:+ Py.concat "." (map Py.str [26; 3; 11579264]) +:+ "") :: []
  ∧ is_fatal
      (check_ndk_version
         {["ndk/source.properties" :=
             "Pkg.Desc = Android NDK" +:+ String "010" "Pkg.Revision = 26.3.11579264"]}
         "ndk" []).1 = true.
Proof.
  assert (Py.splitlines
            ("Pkg.Desc = Android NDK" +:+ String "010" "Pkg.Revision = 26.3.11579264")
          = ["Pkg.Desc = Android NDK"]
            ++ ("Pkg.Revision" +:+ " " +:+ "=" +:+ " "
                +:+ Py.concat "." (map Py.str [26; 3; 11579264]) +:+ "") :: [])
    as Hlines by (vm_compute; reflexivity).
  split; [exact Hlines|].
  assert (({["ndk/source.properties" :=
               "Pkg.Desc = Android NDK" +:+ String "010" "Pkg.Revision = 26.3.11579264"]}
             : files) !! Py.join "ndk" "source.properties"
          = Some ("Pkg.Desc = Android NDK" +:+ String "010" "Pkg.Revision = 26.3.11579264"))
    as Hfile by (vm_compute; reflexivity).
  apply (ndk_revision_numbers _ "ndk" _ [] _ _ " " " " "" 26 [3; 11579264] Hfile Hlines).
  - repeat constructor.
  - repeat constructor.
  - constructor.
  - repeat constructor; lia.
  - lia.
Defined.

Lemma read_ndk_version_text_file_witness :
  ({["ndk/source.properties" :=
       unlines (String "013" (String "010" ""))
               ["Pkg.Desc = Android NDK"; "Pkg.Revision = 27.2.12479018"] +:+ ""]} : files)
    !! Py.join "ndk" "source.properties"
  = Some (unlines (String "013" (String "010" ""))
                  ["Pkg.Desc = Android NDK"; "Pkg.Revision = 27.2.12479018"] +:+ "")
  ∧ Py.splitlines
      (unlines (String "013" (String "010" ""))
               ["Pkg.Desc = Android NDK"; "Pkg.Revision = 27.2.12479018"] +:+ "")
    = ["Pkg.Desc = Android NDK"; "Pkg.Revision = 27.2.12479018"] ++ [].
Proof.
  assert (({["ndk/source.properties" :=
               unlines (String "013" (String "010" ""))
                       ["Pkg.Desc = Android NDK"; "Pkg.Revision = 27.2.12479018"]
               +:+ ""]} : files)
            !! Py.join "ndk" "source.properties"
          = Some (unlines (String "013" (String "010" ""))
                          ["Pkg.Desc = Android NDK"; "Pkg.Revision = 27.2.12479018"]
                  +:+ "")) as Hfile by (vm_compute; reflexivity).
  split; [exact Hfile|].
  apply (read_ndk_version_text_file _ "ndk" _ "" _ [] Hfile).
  - by right.
  - repeat constructor.
  - constructor.
Defined.

Lemma ndk_revision_without_value_witness :
  Py.startswith "Pkg.Revision 27.2" "Pkg.Revision" = true
  ∧ check_ndk_version {["ndk/source.properties" := "Pkg.Revision 27.2"]} "ndk" []
    = (Raise (InvalidVersion (Py.strip "Pkg.Revision 27.2")), []).
Proof.
  split; [reflexivity|].
  assert (({["ndk/source.properties" := "Pkg.Revision 27.2"]} : files)
            !! Py.join "ndk" "source.properties" = Some "Pkg.Revision 27.2")
    as Hfile by (vm_compute; reflexivity).
  assert (Py.splitlines "Pkg.Revision 27.2" = [] ++ "Pkg.Revision 27.2" :: [])
    as Hlines by reflexivity.
  apply (ndk_revision_without_value _ "ndk" _ _ [] [] [] Hfile Hlines);
    [constructor|reflexivity|].
  vm_compute. intros Hin. repeat (apply elem_of_cons in Hin as [Hin|Hin]; [discriminate|]).
  by apply elem_of_nil in Hin.
Defined.

(** ** Betas and release candidates *)

Section PreReleases.
Import Re version.
Local Open Scope regex_scope.

Lemma substring_app (a b : string) : String.substring 0 (String.length a) (a +:+ b) = a.
Proof.
  induction a as [|c a IH]; [by destruct b|].
  rewrite string_app_cons. cbn [String.length String.substring]. by rewrite IH.
Qed.

Lemma consumed_app (a b : string) : consumed (a +:+ b) b = a.
Proof.
  unfold consumed. rewrite string_app_length.
  replace (String.length a + String.length b - String.length b)%nat
    with (String.length a) by lia.
  apply substring_app.
Qed.

Lemma dotted_tail_rest_stops (ds : list string) (rest : string) :
  stops Py.isdigit rest → stops Py.isdigit (dotted_tail ds +:+ rest).
Proof. by destruct ds. Qed.

Lemma dotted_tail_rest_stops_bang (ds : list string) (rest : string) :
  stops (is_chr "!") rest → stops (is_chr "!") (dotted_tail ds +:+ rest).
Proof. by destruct ds. Qed.

(** The repetition after the first number stops where no ["."] follows. *)
Lemma head_dotted_tail_rest (ds : list string) (rest : string) (g : gmap string string) :
  Forall number ds → stops Py.isdigit rest → stops (is_chr ".") rest →
  head (rmatch (Star (Lit "." >> digits)) (dotted_tail ds +:+ rest) g) = Some (rest, g).
Proof.
  intros Hds Hrest Hdot. induction Hds as [|d ds Hd Hds IH].
  - cbn [dotted_tail]. rewrite string_app_nil_l, rmatch_star, rmatch_seq.
    change (Lit ".") with (Cls (is_chr ".")).
    by rewrite rmatch_cls_stops.
  - cbn [dotted_tail]. rewrite string_app_cons, string_app_assoc.
    rewrite rmatch_star. apply head_app.
    eapply head_flat_map.
    + rewrite rmatch_seq. change (Lit ".") with (Chr ".").
      rewrite rmatch_chr_self. cbn [flat_map fst snd]. rewrite app_nil_r.
      apply head_digits_number; [done|by apply dotted_tail_rest_stops].
    + cbn [fst snd].
      destruct (Nat.ltb_spec (String.length (dotted_tail ds +:+ rest))
                  (String.length (String "." (d +:+ dotted_tail ds +:+ rest))))
        as [_|Hge]; [exact IH|].
      simpl in Hge. rewrite string_app_length in Hge. lia.
Qed.

Lemma head_release_rest (d rest : string) (ds : list string) (g : gmap string string) :
  number d → Forall number ds → stops Py.isdigit rest → stops (is_chr ".") rest →
  head (rmatch release_segment ((d +:+ dotted_tail ds) +:+ rest) g)
  = Some (rest, <["release" := d +:+ dotted_tail ds]> g).
Proof.
  intros Hd Hds Hrest Hdot. unfold release_segment.
  change (rmatch (Grp "release" (digits >> Star (Lit "." >> digits))) ?s g)
    with (map (fun st : state => (st.1, <["release" := consumed s st.1]> st.2))
              (rmatch (digits >> Star (Lit "." >> digits)) s g)).
  erewrite head_map; cycle 1.
  { rewrite rmatch_seq, string_app_assoc. eapply head_flat_map.
    - apply head_digits_number; [done|by apply dotted_tail_rest_stops].
    - by apply head_dotted_tail_rest. }
  cbn [fst snd]. by rewrite consumed_app.
Qed.

Lemma digit_stops_sep (c : ascii) (s : string) :
  Py.isdigit c = true →
  stops (fun x => existsb (fun c => Ascii.eqb (Py.lower_char x) (Py.lower_char c))
                          (list_ascii_of_string "-_."))
        (String c s).
Proof.
  intros Hc. simpl. destruct c as [[] [] [] [] [] [] [] []]; vm_compute in Hc |- *;
    first [reflexivity | discriminate].
Qed.

Lemma rmatch_sep_number (d : string) (g : gmap string string) :
  number d → rmatch sep d g = [(d, g)].
Proof.
  intros [Hne Hd]. destruct d as [|c d]; [done|].
  apply Forall_cons in Hd as [Hc _].
  unfold sep, OneOf. rewrite rmatch_opt, rmatch_cls_stops; [done|].
  by apply digit_stops_sep.
Qed.

Lemma rmatch_sep_dash (s : string) (g : gmap string string) :
  rmatch sep (String "-" s) g = [(s, g); (String "-" s, g)].
Proof. reflexivity. Qed.

Lemma head_pre_n (d : string) (g : gmap string string) :
  number d →
  head (rmatch (Opt (Grp "pre_n" digits)) d g) = Some ("", <["pre_n" := d]> g).
Proof.
  intros Hd. rewrite rmatch_opt. apply head_app.
  change (rmatch (Grp "pre_n" digits) d g)
    with (map (fun st : state => (st.1, <["pre_n" := consumed d st.1]> st.2))
              (rmatch digits d g)).
  erewrite head_map; cycle 1.
  { rewrite <- (string_app_nil_r d). by apply head_digits_number. }
  cbn [fst snd]. unfold consumed. cbn [String.length].
  by rewrite Nat.sub_0_r, substring_all.
Qed.

(** The pre-release segment reads ["-beta"] or ["-rc"] and its number. *)
Lemma head_pre_segment (tag letter d : string) (g : gmap string string) :
  ndk_pre_tag tag letter → number d →
  head (rmatch pre_segment (String "-" (tag +:+ d)) g)
  = Some ("", <["pre" := String "-" (tag +:+ d)]>
                (<["pre_n" := d]> (<["pre_l" := tag]> g))).
Proof.
  intros Htag Hd. unfold pre_segment.
  match goal with
  | |- head (rmatch (Grp "pre" ?x) ?s g) = _ =>
      change (rmatch (Grp "pre" x) s g)
        with (map (fun st : state => (st.1, <["pre" := consumed s st.1]> st.2))
                  (rmatch x s g))
  end.
  erewrite head_map; cycle 1.
  { rewrite rmatch_seq, rmatch_sep_dash. eapply head_flat_map; [reflexivity|].
    cbn [fst snd]. rewrite rmatch_seq. eapply head_flat_map.
    - match goal with
      | |- head (rmatch (Grp "pre_l" ?x) ?s g) = _ =>
          change (rmatch (Grp "pre_l" x) s g)
            with (map (fun st : state => (st.1, <["pre_l" := consumed s st.1]> st.2))
                      (rmatch x s g))
      end.
      apply head_map.
      instantiate (1 := (d, g)).
      destruct Htag as [[-> _]|[-> _]]; vm_compute; reflexivity.
    - cbn [fst snd]. rewrite consumed_app, rmatch_seq, rmatch_sep_number by done.
      cbn [flat_map fst snd]. rewrite app_nil_r. by apply head_pre_n. }
  cbn [fst snd]. unfold consumed. change (String.length "") with 0%nat.
  by rewrite Nat.sub_0_r, substring_all.
Qed.

Lemma rmatch_after_pre_empty (g : gmap string string) :
  rmatch (Opt post_segment >> Opt dev_segment >> Opt local_segment) "" g = [("", g)].
Proof. vm_compute. reflexivity. Qed.

(** On [n1. ... .nk-beta<m>] and [n1. ... .nk-rc<m>] the pattern captures
    the release, the tag and its number. *)
Lemma search_pre_release (d : string) (ds : list string) (tag letter m : string) :
  number d → Forall number ds → ndk_pre_tag tag letter → number m →
  search _regex ((d +:+ dotted_tail ds) +:+ String "-" (tag +:+ m))
  = Some (<["pre" := String "-" (tag +:+ m)]>
            (<["pre_n" := m]>
               (<["pre_l" := tag]> (<["release" := d +:+ dotted_tail ds]> ∅)))).
Proof.
  intros Hd Hds Htag Hm.
  match goal with
  | |- search _regex ?s = Some ?g =>
      assert (head (rmatch _regex s ∅) = Some ("", g)) as Hhead
  end.
  { unfold _regex. rewrite rmatch_seq.
    destruct d as [|c1 d1]; [by destruct Hd|].
    pose proof Hd as [_ [Hc1 _]%Forall_cons].
    rewrite !string_app_cons, rmatch_star_cls_stops by by apply digit_stops_space.
    cbn [flat_map fst snd]. rewrite app_nil_r.
    rewrite rmatch_seq. eapply head_flat_map.
    - unfold VERSION_PATTERN.
      rewrite rmatch_seq, rmatch_opt, digit_not_v by done.
      cbn [app flat_map fst snd]. rewrite app_nil_r.
      rewrite rmatch_seq, rmatch_opt, <- !string_app_cons, string_app_assoc.
      rewrite rmatch_epoch_stops; [|apply Hd|by destruct ds..].
      cbn [app flat_map fst snd]. rewrite app_nil_r.
      rewrite rmatch_seq, <- string_app_assoc. eapply head_flat_map.
      + by apply head_release_rest.
      + cbn [fst snd]. unfold suffix_segments.
        rewrite rmatch_seq, rmatch_opt. eapply head_flat_map.
        * apply head_app. by eapply head_pre_segment.
        * cbn [fst snd]. by rewrite rmatch_after_pre_empty.
    - cbn [fst snd]. by rewrite rmatch_end_empty. }
  unfold search. destruct (rmatch _regex _ ∅); simpl in Hhead; [done|].
  by injection Hhead as ->.
Qed.

(** [Version("n1. ... .nk-beta<m>")] and [Version("n1. ... .nk-rc<m>")] *)
Lemma Version_of_pre_release (d : string) (ds : list string) (tag letter m : string) :
  number d → Forall number ds → ndk_pre_tag tag letter → number m →
  Version_of (Py.concat "." (d :: ds) +:+ "-" +:+ tag +:+ m)
  = Some (mkVersion 0 (map Py.int (d :: ds)) (Some (letter, Py.int m)) None None None).
Proof.
  intros Hd Hds Htag Hm. rewrite concat_dotted. unfold Version_of.
  change ("-" +:+ tag +:+ m) with (String "-" (tag +:+ m)).
  erewrite search_pre_release by done.
  repeat first [rewrite lookup_insert_eq | rewrite lookup_insert_ne by done
               | rewrite lookup_empty].
  cbn [default or_group truthy _parse_local_version]. unfold id.
  rewrite split_dotted by done.
  by destruct Htag as [[-> ->]|[-> ->]].
Qed.
End PreReleases.

(** The value of a revision line, for a value with no whitespace and no
    ["="] inside. *)
Lemma revision_value_solid (key_rest pad1 pad2 value : string) :
  blank pad1 → blank pad2 → solid value → "="%char ∉ list_ascii_of_string value →
  Py.strip (Py.last_item (Py.split "="
     ("Pkg.Revision" +:+ key_rest +:+ "=" +:+ pad1 +:+ value +:+ pad2)))
  = value.
Proof.
  intros Hpad1 Hpad2 Hsolid Hnoeq.
  rewrite <- (string_app_assoc "Pkg.Revision" key_rest).
  rewrite last_item_split.
  - by apply strip_padded.
  - rewrite !list_ascii_app, !not_elem_of_app.
    split; [by apply blank_no_eq|]. split; [done|by apply blank_no_eq].
Qed.

Lemma pre_release_chars (d : string) (ds : list string) (tag letter m : string) :
  number d → Forall number ds → ndk_pre_tag tag letter → number m →
  Forall (fun c => Py.isspace c = false ∧ c ≠ "="%char)
         (list_ascii_of_string (Py.concat "." (d :: ds) +:+ "-" +:+ tag +:+ m)).
Proof.
  intros Hd Hds Htag [_ Hm]. rewrite !list_ascii_app, concat_dotted.
  repeat (apply Forall_app; split).
  - eapply Forall_impl; [by apply dotted_chars|]. intros c Hc.
    by apply digit_solid_no_eq.
  - by repeat constructor.
  - destruct Htag as [[-> _]|[-> _]]; by repeat constructor.
  - eapply Forall_impl; [exact Hm|]. intros c Hc. apply digit_solid_no_eq. by left.
Qed.

(** X11: the revision of a beta or of a release candidate of the NDK,
    [n1. ... .nk-beta<m>] or [n1. ... .nk-rc<m>], is read as the release
    [(n1, ..., nk)] with the pre-release ["b"] or ["rc"] and its number; the
    check goes by [n1] alone: it logs the same label as for the final
    release and is fatal exactly when [n1 < 27]. *)
Theorem ndk_pre_release_revision
    (fs : files) (ndk_dir ndk_data : string) (log : list log_record)
    (before after : list string) (key_rest pad1 pad2 tag letter : string)
    (major m : Z) (rest : list Z)
    (Hfile : fs !! Py.join ndk_dir "source.properties" = Some ndk_data)
    (Hlines : Py.splitlines ndk_data
              = before
                ++ ("Pkg.Revision" +:+ key_rest +:+ "=" +:+ pad1
                    +:+ (Py.concat "." (map Py.str (major :: rest))
                         +:+ "-" +:+ tag +:+ Py.str m)
                    +:+ pad2)
                   :: after)
    (Hbefore : Forall (fun l => Py.startswith l "Pkg.Revision" = false) before)
    (Hpad1 : blank pad1) (Hpad2 : blank pad2)
    (Hnumbers : Forall (fun k => 0 <= k) (major :: rest))
    (Htag : ndk_pre_tag tag letter)
    (Hm : 0 <= m) :
  let v := version.mkVersion 0 (major :: rest) (Some (letter, m)) None None None in
  read_ndk_version fs ndk_dir log = (Return (Some v), log)
  ∧ version.major v = major
  ∧ string_version v
    = string_version (version.mkVersion 0 (major :: rest) None None None None)
  ∧ (is_fatal (check_ndk_version fs ndk_dir log).1 = true ↔ major < 27)
  ∧ (raised (check_ndk_version fs ndk_dir log).1 = true ↔ major < 27)
  ∧ ∃ more,
      (check_ndk_version fs ndk_dir log).2
      = log ++ Log INFO ("Found NDK version " +:+ Py.str major
                         +:+ default "" (minor_to_letter !! nth 0 rest 0)) :: more.
Proof.
  intros v.
  assert (Forall number (map Py.str (major :: rest))) as Hnums.
  { rewrite Forall_map. eapply Forall_impl; [exact Hnumbers|].
    intros k Hk. by apply number_str. }
  cbn [map] in Hnums. apply Forall_cons in Hnums as [Hn Hns].
  assert (read_ndk_version fs ndk_dir log = (Return (Some v), log)) as Hread.
  { rewrite read_ndk_version_unfold, Hfile, Hlines.
    rewrite revision_line_first; [|done|].
    - unfold revision_of_line. cbn zeta. cbn [map].
      pose proof (pre_release_chars _ _ _ _ _ Hn Hns Htag (number_str m Hm)) as Hchars.
      rewrite revision_value_solid; [|done|done| |].
      + unfold version.parse.
        rewrite (Version_of_pre_release _ _ _ letter) by (done || by apply number_str).
        change (Py.str major :: map Py.str rest) with (map Py.str (major :: rest)).
        rewrite map_map, int_str by done.
        replace (map (fun x => Py.int (Py.str x)) (major :: rest)) with (major :: rest);
          [done|].
        rewrite <- (map_id (major :: rest)) at 1.
        apply map_ext_Forall. eapply Forall_impl; [exact Hnumbers|].
        intros k Hk. by rewrite int_str.
      + eapply Forall_impl; [exact Hchars|]. by intros c [? _].
      + rewrite Forall_forall in Hchars. intros Hin.
        by destruct (Hchars _ Hin) as [_ ?].
    - apply startswith_iff. by eexists. }
  split; [exact Hread|]. split; [reflexivity|]. split; [reflexivity|].
  rewrite (check_ndk_version_found _ _ _ _ Hread).
  change (version.major v) with major.
  unfold string_version. change (version.major v) with major.
  replace (version.minor v) with (nth 0 rest 0) by by destruct rest.
  destruct (decide (major < 27)), (decide (27 < major)); cbn [fst snd is_fatal raised];
    (split; [|split]); try (split; (done || lia)); by eexists.
Qed.

Lemma ndk_pre_release_revision_witness :
  Py.splitlines "Pkg.Revision = 27.0.11718014-beta1"
  = [] ++ ("Pkg.Revision" +:+ " " +:+ "=" +:+ " "
           +:+ (Py.concat "." (map Py.str [27; 0; 11718014]) +:+ "-" +:+ "beta" +:+ Py.str 1)
           +:+ "") :: []
  ∧ read_ndk_version {["ndk/source.properties" := "Pkg.Revision = 27.0.11718014-beta1"]}
                     "ndk" []
    = (Return (Some (version.mkVersion 0 [27; 0; 11718014] (Some ("b", 1)) None None None)),
       []).
Proof.
  assert (Py.splitlines "Pkg.Revision = 27.0.11718014-beta1"
          = [] ++ ("Pkg.Revision" +:+ " " +:+ "=" +:+ " "
                   +:+ (Py.concat "." (map Py.str [27; 0; 11718014])
                        +:+ "-" +:+ "beta" +:+ Py.str 1)
                   +:+ "") :: []) as Hlines by (vm_compute; reflexivity).
  split; [exact Hlines|].
  assert (({["ndk/source.properties" := "Pkg.Revision = 27.0.11718014-beta1"]} : files)
            !! Py.join "ndk" "source.properties"
          = Some "Pkg.Revision = 27.0.11718014-beta1") as Hfile
    by (vm_compute; reflexivity).
  apply (ndk_pre_release_revision _ "ndk" _ [] _ _ " " " " "" "beta" "b" 27 1
           [0; 11718014] Hfile Hlines).
  - constructor.
  - repeat constructor.
  - constructor.
  - repeat constructor; lia.
  - by left.
  - lia.
Defined.

(** ** The revision of a text file *)

(** C5: [read_ndk_version] returns [None] when the properties file cannot
    be opened and when no line begins with [Pkg.Revision]; otherwise it
    stops at the first such line in the order of the file, whatever follows
    it, takes what is after the last ["="] of the line, strips it, and
    returns the version it parses to.  The lines are those of the text:
    on a file of lines ended by LF or CR LF, [splitlines] gives these lines
    back, and stripping removes the whitespace around the value, so the
    result is that of the value itself.  The line
    ["Pkg.Revision = 27.2.12479018"] gives major 27 and minor 2, also when
    other lines come before it, whitespace follows it and another revision
    comes after it. *)
Theorem C5_read_ndk_version (fs : files) (ndk_dir : string) (log : list log_record) :
  read_ndk_version fs ndk_dir log =
    match fs !! Py.join ndk_dir "source.properties" with
    | None => (Return None, log ++ [Log INFO UNKNOWN_NDK_MESSAGE])
    | Some ndk_data =>
        match revision_line (Py.splitlines ndk_data) with
        | None => (Return None, log ++ [Log INFO PARSE_ERROR_NDK_MESSAGE])
        | Some line =>
            let value := Py.strip (Py.last_item (Py.split "=" line)) in
            match version.parse value with
            | Some v => (Return (Some v), log)
            | None => (Raise (InvalidVersion value), log)
            end
        end
    end
  ∧ (∀ lines : list string,
       revision_line lines = None
       ↔ Forall (fun l => Py.startswith l "Pkg.Revision" = false) lines)
  ∧ (∀ (before after : list string) (line : string),
       Forall (fun l => Py.startswith l "Pkg.Revision" = false) before →
       Py.startswith line "Pkg.Revision" = true →
       revision_line (before ++ line :: after) = Some line)
  ∧ (∀ key value : string,
       "="%char ∉ list_ascii_of_string value →
       Py.last_item (Py.split "=" (key +:+ "=" +:+ value)) = value)
  ∧ (fs !! Py.join ndk_dir "source.properties" = Some "Pkg.Revision = 27.2.12479018" →
     ∃ v, read_ndk_version fs ndk_dir log = (Return (Some v), log)
          ∧ version.major v = 27 ∧ version.minor v = 2)
  (* the lines of a text are the lines scanned *)
  ∧ (∀ (eol last : string) (lines : list string),
       is_eol eol → Forall one_line lines → one_line last →
       Py.splitlines (unlines eol lines +:+ last)
       = lines ++ match last with "" => [] | _ => [last] end)
  (* stripping removes the whitespace around the value, and only it *)
  ∧ (∀ pad1 value pad2 : string,
       blank pad1 → solid value → blank pad2 →
       Py.strip (pad1 +:+ value +:+ pad2) = value)
  (* no line of the text starts with the key: absent *)
  ∧ (∀ (eol last : string) (lines : list string),
       fs !! Py.join ndk_dir "source.properties" = Some (unlines eol lines +:+ last) →
       is_eol eol → Forall one_line lines → one_line last →
       Forall (fun l => Py.startswith l "Pkg.Revision" = false) (lines ++ [last]) →
       read_ndk_version fs ndk_dir log
       = (Return None, log ++ [Log INFO PARSE_ERROR_NDK_MESSAGE]))
  (* the first line of the text that starts with the key decides, by the
     value after its last "=" without the whitespace around it *)
  ∧ (∀ (eol last key_rest pad1 value pad2 : string) (before after : list string),
       fs !! Py.join ndk_dir "source.properties"
       = Some (unlines eol
                 (before
                  ++ ("Pkg.Revision" +:+ key_rest +:+ "=" +:+ pad1 +:+ value +:+ pad2)
                     :: after)
               +:+ last) →
       is_eol eol → Forall one_line before → Forall one_line after → one_line last →
       one_line ("Pkg.Revision" +:+ key_rest +:+ "=" +:+ pad1 +:+ value +:+ pad2) →
       Forall (fun l => Py.startswith l "Pkg.Revision" = false) before →
       blank pad1 → blank pad2 → solid value →
       "="%char ∉ list_ascii_of_string value →
       read_ndk_version fs ndk_dir log =
         match version.parse value with
         | Some v => (Return (Some v), log)
         | None => (Raise (InvalidVersion value), log)
         end)
  (* a file of three lines, the revision followed by whitespace and by
     another revision *)
  ∧ (fs !! Py.join ndk_dir "source.properties"
     = Some (unlines (String "010" "")
               ["Pkg.Desc = Android NDK";
                "Pkg.Revision = 27.2.12479018  ";
                "Pkg.Revision = 26.1.10909125"]) →
     ∃ v, read_ndk_version fs ndk_dir log = (Return (Some v), log)
          ∧ version.major v = 27 ∧ version.minor v = 2).
Proof.
  split; [|split; [|split; [|split; [|split; [|split; [|split; [|split; [|split]]]]]]]].
  - rewrite read_ndk_version_unfold.
    destruct (fs !! _); [|done]. destruct (revision_line _); [|done].
    unfold revision_of_line. simpl. by destruct (version.parse _).
  - apply revision_line_none.
  - intros. by apply revision_line_first.
  - apply last_item_split.
  - intros Hfile. rewrite read_ndk_version_unfold, Hfile.
    eexists. split; [vm_compute; reflexivity|]. by vm_compute.
  - intros. by apply splitlines_unlines.
  - intros. by apply strip_padded.
  - intros eol last lines Hfile Heol Hlines Hlast Hnone.
    rewrite read_ndk_version_unfold, Hfile, splitlines_unlines by done.
    replace (revision_line (lines ++ match last with "" => [] | _ => [last] end))
      with (@None string); [done|].
    symmetry. apply revision_line_none.
    apply Forall_app in Hnone as [Hnone Hnone_last].
    apply Forall_app. split; [done|]. by destruct last.
  - intros eol last key_rest pad1 value pad2 before after
      Hfile Heol Hbefore_lines Hafter_lines Hlast Hline Hbefore Hpad1 Hpad2 Hsolid Hnoeq.
    assert (Forall one_line
              (before
               ++ ("Pkg.Revision" +:+ key_rest +:+ "=" +:+ pad1 +:+ value +:+ pad2)
                  :: after)) as Hlines.
    { apply Forall_app. split; [done|]. by constructor. }
    rewrite read_ndk_version_unfold, Hfile, splitlines_unlines by done.
    rewrite <- app_assoc, <- app_comm_cons.
    rewrite revision_line_first; [|done|apply startswith_iff; by eexists].
    unfold revision_of_line. cbn zeta.
    rewrite revision_value_solid by done.
    by destruct (version.parse value).
  - intros Hfile. rewrite read_ndk_version_unfold, Hfile.
    eexists. split; [vm_compute; reflexivity|]. by vm_compute.
Qed.
